(** * SRA API client ([index.js]): a shallow embedding and its properties

    The client is a thin layer over two libraries: superagent (the HTTP
    session and its request builders) and lodash ([_.isFunction],
    [_.forEach], [_.merge]).  The embedding keeps the JavaScript data the
    code manipulates (dynamically typed values, objects as ordered
    property lists, IEEE-754 doubles) and threads the observable effects
    of every function (requests sent, callbacks invoked, timers armed,
    exceptions thrown) through a small writer/error monad. *)

From Stdlib Require Import ZArith List String Ascii Bool Lia.
From Stdlib Require Import SpecFloat DecimalString.
Import ListNotations.

Set Warnings "-register-all".

Local Open Scope string_scope.
Local Open Scope Z_scope.

(* ================================================================== *)
(** ** JavaScript values *)
(* ================================================================== *)

Module JS.

(** Numbers are binary64 floats, specified by [SpecFloat]. *)
Definition prec : Z := 53.
Definition emax : Z := 1024.

Definition number := spec_float.

Definition of_Z (z : Z) : number := binary_normalize prec emax z 0 false.
Definition fdiv : number -> number -> number := SFdiv prec emax.
Definition fmul : number -> number -> number := SFmul prec emax.

(** A JSON array is an object whose keys are its indices; a function is
    opaque and identified by a tag.  The property list of an object is in
    insertion order, the order [for..in], lodash and the query-string
    encoder enumerate. *)
Inductive value : Type :=
| VUndef
| VNull
| VBool (b : bool)
| VNum (x : number)
| VStr (s : string)
| VFun (id : nat)
| VObj (fields : list (string * value)).

Definition obj := list (string * value).

Inductive exn : Type :=
| TypeError (msg : string)
| ReferenceError (msg : string)
| Error (msg : string).

(** [if (v)]: ToBoolean. *)
Definition truthy (v : value) : bool :=
  match v with
  | VUndef | VNull => false
  | VBool b => b
  | VNum (S754_zero _) | VNum S754_nan => false
  | VNum _ => true
  | VStr s => negb (s =? "")%string
  | VFun _ | VObj _ => true
  end.

Fixpoint lookup (k : string) (o : obj) : option value :=
  match o with
  | [] => None
  | (k', v) :: o' => if (k =? k')%string then Some v else lookup k o'
  end.

(** [o[k] = v] on an object: an existing property keeps its place, a new
    one goes last. *)
Fixpoint assign (k : string) (v : value) (o : obj) : obj :=
  match o with
  | [] => [(k, v)]
  | (k', v') :: o' =>
      if (k =? k')%string then (k', v) :: o' else (k', v') :: assign k v o'
  end.

(** [v.k]: reading a property of [undefined] or [null] throws; a missing
    property, or any property of a primitive the code asks for, is
    [undefined]. *)
Definition get (v : value) (k : string) : exn + value :=
  match v with
  | VUndef => inl (TypeError ("Cannot read property '" ++ k ++ "' of undefined"))
  | VNull => inl (TypeError ("Cannot read property '" ++ k ++ "' of null"))
  | VObj o => inr (match lookup k o with Some x => x | None => VUndef end)
  | _ => inr VUndef
  end.

(** [v.k = x] in sloppy mode (the module has no ['use strict']): a write
    to a primitive is dropped; a write to [undefined]/[null] never gets
    here, the read of the base has thrown before. *)
Definition put (v : value) (k : string) (x : value) : value :=
  match v with
  | VObj o => VObj (assign k x o)
  | _ => v
  end.

(** [v === "s"], the comparison a [switch] over string labels makes. *)
Definition is_str (v : value) (s : string) : bool :=
  match v with
  | VStr s' => (s' =? s)%string
  | _ => false
  end.

Definition string_of_Z (z : Z) : string := NilZero.string_of_int (Z.to_int z).

(** The coercions of the language runtime that the client reaches only on
    ill-typed data (a number printed in a URL, a string or an object
    used as a number) are left to the runtime. *)
Record runtime : Type := {
  StringToNumber : string -> number;
  ObjectToNumber : value -> number;
  NumberToString : number -> string;
  ObjectToString : value -> string
}.

Definition ToNumber (rt : runtime) (v : value) : number :=
  match v with
  | VUndef => S754_nan
  | VNull => S754_zero false
  | VBool true => of_Z 1
  | VBool false => S754_zero false
  | VNum x => x
  | VStr s => StringToNumber rt s
  | VFun _ | VObj _ => ObjectToNumber rt v
  end.

Definition ToString (rt : runtime) (v : value) : string :=
  match v with
  | VUndef => "undefined"
  | VNull => "null"
  | VBool true => "true"
  | VBool false => "false"
  | VNum x => NumberToString rt x
  | VStr s => s
  | VFun _ | VObj _ => ObjectToString rt v
  end.

(** [Math.ceil]: the least integer not below [x]; NaN, the infinities
    and the zeros are fixed, and a negative fraction above [-1] gives
    [-0]. *)
Definition Math_ceil (x : number) : number :=
  match x with
  | S754_finite s m e =>
      if 0 <=? e then x
      else
        let d := 2 ^ (- e) in
        let q := Zpos m / d in
        let r := Zpos m mod d in
        if s then
          if q =? 0 then S754_zero true
          else binary_normalize prec emax (- q) 0 true
        else binary_normalize prec emax (q + (if r =? 0 then 0 else 1)) 0 false
  | _ => x
  end.

End JS.

Import JS.

(* ================================================================== *)
(** ** Effects *)
(* ================================================================== *)

Inductive method : Type := GET | POST.

(** A superagent request as its builders leave it at [.end]. *)
Record request : Type := {
  r_method : method;
  r_url : string;
  r_data : option value;             (* [.send(data)] *)
  r_attach : list (string * value);  (* [.attach(name, file)] *)
  r_fields : list (string * value);  (* [.field(name, val)] *)
  r_qs : obj                         (* [.query(obj)] *)
}.

(** What superagent hands to an [.end] callback besides [err]. *)
Record response : Type := {
  statusCode : Z;   (* [res.statusCode] *)
  status : Z;       (* [res.status] *)
  body : value      (* [res.body] *)
}.

(** The closures the client hands to superagent and to the timer, each
    with the variables it captures. *)
Inductive closure : Type :=
| KNormalize (callback : value)
    (* [(err, res) => this._handleResponse(err, res, callback)] *)
| KPoll (task callback callbackProgress : value).
    (* [function(err, res) {...}] of [checkTask] *)

Inductive thunk : Type :=
| KCheckTask (task callback callbackProgress : value).   (* [checkTask] *)

Inductive effect : Type :=
| ESend (r : request) (k : closure)     (* [<request>.end(k)] *)
| ECallback (args : list value)         (* [callback(...)] *)
| EProgress (args : list value)         (* [callbackProgress(...)] *)
| ESetTimeout (f : thunk) (delay : Z).  (* [setTimeout(f, delay)] *)

(** A computation logs its effects and ends in a value or in the
    exception that escaped it. *)
Definition M (A : Type) : Type := (list effect * (exn + A))%type.

Definition ret {A} (a : A) : M A := ([], inr a).
Definition throw {A} (e : exn) : M A := ([], inl e).
Definition emit (e : effect) : M unit := ([e], inr tt).
Definition lift {A} (r : exn + A) : M A := ([], r).

Definition bind {A B} (m : M A) (k : A -> M B) : M B :=
  match m with
  | (es, inl e) => (es, inl e)
  | (es, inr a) => let (es', r) := k a in ((es ++ es')%list, r)
  end.

Notation "x <- m ;; k" := (bind m (fun x => k))
  (at level 61, m at next level, right associativity).
Notation "m ;;; k" := (bind m (fun _ => k))
  (at level 61, right associativity).

Definition effects {A} (m : M A) : list effect := fst m.
Definition outcome {A} (m : M A) : exn + A := snd m.

(* ================================================================== *)
(** ** lodash *)
(* ================================================================== *)

Module Lodash.

Definition isFunction (v : value) : bool :=
  match v with
  | VFun _ => true
  | _ => false
  end.

Fixpoint chars_from (i : nat) (s : string) : obj :=
  match s with
  | EmptyString => []
  | String c s' =>
      (string_of_Z (Z.of_nat i), VStr (String c EmptyString)) :: chars_from (S i) s'
  end.

(** The own enumerable properties lodash iterates: those of an object,
    the characters of a string, none for the other values. *)
Definition entries (v : value) : obj :=
  match v with
  | VObj o => o
  | VStr s => chars_from 0 s
  | _ => []
  end.

Definition objValue (k : string) (o : obj) : value :=
  match lookup k o with
  | Some v => v
  | None => VUndef
  end.

(** [isLength]: a number that is a whole, non-negative length, at most
    [MAX_SAFE_INTEGER]; the length it is. *)
Definition MAX_SAFE_INTEGER : Z := 2 ^ 53 - 1.

Definition isLength (v : value) : option Z :=
  match v with
  | VNum (S754_zero _) => Some 0
  | VNum (S754_finite false m e) =>
      let n := if 0 <=? e then Zpos m * 2 ^ e else Zpos m / 2 ^ (- e) in
      let whole := if 0 <=? e then true else Zpos m mod 2 ^ (- e) =? 0 in
      if whole && (n <=? MAX_SAFE_INTEGER) then Some n else None
  | _ => None
  end.

(** What [_.forEach(collection, (v, k) => ...)] visits, as [(k, v)] in
    order.  A string, and an object whose [length] is a length
    ([isArrayLike]), is walked by index, from 0 to the length, whatever
    properties it has; any other object by its own properties;
    [undefined], [null] and the other values have nothing to visit.  An
    index is recorded by its decimal name. *)
Definition forEach (collection : value) : obj :=
  match collection with
  | VStr s => chars_from 0 s
  | VObj o =>
      match isLength (objValue "length" o) with
      | Some n =>
          map (fun i => (string_of_Z (Z.of_nat i),
                         objValue (string_of_Z (Z.of_nat i)) o))
              (seq 0 (Z.to_nat n))
      | None => o
      end
  | _ => []
  end.

Definition has (k : string) (o : obj) : bool :=
  match lookup k o with
  | Some _ => true
  | None => false
  end.

(** [assignMergeValue] (lodash 4): an [undefined] source value is skipped
    when the destination already has the key. *)
Definition assignMergeValue (o : obj) (k : string) (v : value) : obj :=
  match v with
  | VUndef => if has k o then o else assign k VUndef o
  | _ => assign k v o
  end.

(** The value [baseMerge] stores under a key: a source object is merged
    recursively into the destination's object (into a fresh one when the
    destination holds none), any other source value is taken as it is. *)
Fixpoint mergeValue (dst src : value) : value :=
  match src with
  | VObj sfs =>
      let start := match dst with VObj o => o | _ => [] end in
      VObj ((fix go (fs : obj) (acc : obj) {struct fs} : obj :=
               match fs with
               | [] => acc
               | (k, v) :: fs' =>
                   go fs' (assignMergeValue acc k (mergeValue (objValue k acc) v))
               end) sfs start)
  | _ => src
  end.

Fixpoint baseMerge (o : obj) (fs : obj) : obj :=
  match fs with
  | [] => o
  | (k, v) :: fs' => baseMerge (assignMergeValue o k (mergeValue (objValue k o) v)) fs'
  end.

(** [_.merge(object, ...sources)]: sources are merged left to right, a
    falsy source is skipped. *)
Definition merge (o : obj) (sources : list value) : obj :=
  fold_left (fun acc src => if truthy src then baseMerge acc (entries src) else acc)
            sources o.

End Lodash.

Import Lodash.

(** lodash recurses into plain objects (and arrays) only. *)
Definition is_plain_object (v : value) : bool :=
  match v with
  | VObj _ => true
  | _ => false
  end.

(* ================================================================== *)
(** ** superagent *)
(* ================================================================== *)

Module Superagent.

Definition blank (m : method) (u : string) : request :=
  {| r_method := m; r_url := u; r_data := None;
     r_attach := []; r_fields := []; r_qs := [] |}.

Definition agent_get : string -> request := blank GET.
Definition agent_post : string -> request := blank POST.

Definition send (data : value) (r : request) : request :=
  {| r_method := r_method r; r_url := r_url r; r_data := Some data;
     r_attach := r_attach r; r_fields := r_fields r; r_qs := r_qs r |}.

(** [.attach(name, file)]: a file given as a string is a path to read
    from; of any other file, no file name being passed, [file.path] is
    read, which throws on [undefined] and [null]. *)
Definition attach (name : string) (file : value) (r : request)
    : exn + request :=
  let attached :=
    {| r_method := r_method r; r_url := r_url r; r_data := r_data r;
       r_attach := (r_attach r ++ [(name, file)])%list;
       r_fields := r_fields r; r_qs := r_qs r |} in
  match file with
  | VStr _ => inr attached
  | _ =>
      match get file "path" with
      | inl e => inl e
      | inr _ => inr attached
      end
  end.

(** [.field(name, val)] refuses a value that is [undefined] or [null]. *)
Definition field (name : string) (val : value) (r : request)
    : exn + request :=
  match val with
  | VUndef | VNull => inl (Error ".field(name, val) val can not be empty")
  | _ =>
      inr {| r_method := r_method r; r_url := r_url r; r_data := r_data r;
             r_attach := r_attach r;
             r_fields := (r_fields r ++ [(name, val)])%list;
             r_qs := r_qs r |}
  end.

(** The fields of a form, set one after the other until one is
    refused. *)
Definition fields (items : obj) (r : request) : exn + request :=
  fold_left (fun acc kv =>
               match acc with
               | inl e => inl e
               | inr r' => field (fst kv) (snd kv) r'
               end)
            items (inr r).

(** [.query(obj)] copies the properties of [obj] onto the query. *)
Definition query (o : obj) (r : request) : request :=
  {| r_method := r_method r; r_url := r_url r; r_data := r_data r;
     r_attach := r_attach r; r_fields := r_fields r;
     r_qs := fold_left (fun q kv => assign (fst kv) (snd kv) q) o (r_qs r) |}.

Definition end_ (r : request) (k : closure) : M unit := emit (ESend r k).

End Superagent.

Import Superagent.

(* ================================================================== *)
(** ** The client: [function SRAAPI()] *)
(* ================================================================== *)

(** [this.config]. *)
Record config : Type := {
  url : string;
  pollFreq : Z   (* how often, in ms, to ask the server about a task *)
}.

(** The instance; [this.agent], the superagent session, has no state the
    client reads. *)
Record SRAAPI : Type := { this_config : config }.

Definition new_SRAAPI : SRAAPI :=
  {| this_config := {| url := "http://glitch"; pollFreq := 1000 |} |}.

(** Calling what the caller passed as a callback: a call of a value that
    is not a function throws. *)
Definition call (e : list value -> effect) (name : string) (f : value)
    (args : list value) : M unit :=
  if isFunction f then emit (e args)
  else throw (TypeError (name ++ " is not a function")).

Definition setTimeout (f : thunk) (delay : Z) : M unit :=
  emit (ESetTimeout f delay).

Section Client.

(** The language runtime, and the bindings of the identifiers that no
    scope of the module declares (the global object). *)
Variable rt : runtime.
Variable global : string -> option value.

Definition resolve (x : string) : exn + value :=
  match global x with
  | Some v => inr v
  | None => inl (ReferenceError (x ++ " is not defined"))
  end.

(** [this._handleResponse = function(err, res, callback)]:
<<
    if (!_.isFunction(callback)) return;
    if (err) return callback(err);
    if (res.statusCode != 200) return callback('Status code: ' + res.statusCode);
    callback(null, res.body);
>> *)
Definition _handleResponse (err : value) (res : response) (callback : value)
    : M unit :=
  if negb (isFunction callback) then ret tt
  else if truthy err then call ECallback "callback" callback [err]
  else if negb (statusCode res =? 200) then
    call ECallback "callback" callback
      [VStr ("Status code: " ++ string_of_Z (statusCode res))]
  else call ECallback "callback" callback [VNull; body res].

(** [this.login = function(username, password, callback)]: a POST of
    [{username, password}] to [/api/users/login]; no [return]. *)
Definition login (this : SRAAPI) (username password callback : value)
    : M unit :=
  end_ (send (VObj [("username", username); ("password", password)])
          (agent_post (url (this_config this) ++ "/api/users/login")))
       (KNormalize callback).

(** [this.upload = function(file, settings, callback)]:
<<
    var req = this.agent.post(this.config.url + '/api/libraries/import')
        .attach('file', file)
    _.forEach(settings, (v, k) => req.field(k, v));
    req.end((err, res) => this._handleResponse(err, res, callback));
    return this;
>>
    What [.attach] or [.field] throws leaves [upload] before [.end]. *)
Definition upload (this : SRAAPI) (file settings callback : value)
    : M SRAAPI :=
  req <- lift (attach "file" file
                 (agent_post (url (this_config this) ++ "/api/libraries/import"))) ;;
  req <- lift (fields (forEach settings) req) ;;
  end_ req (KNormalize callback) ;;;
  ret this.

(** [this.taskQueue = function(library, task, settings, callback)]: a
    POST of [{settings: settings || {}}] to
    [/api/tasks/library/ + library + / + task]. *)
Definition taskQueue (this : SRAAPI) (library task settings callback : value)
    : M SRAAPI :=
  end_ (send (VObj [("settings", if truthy settings then settings else VObj [])])
          (agent_post (url (this_config this) ++ "/api/tasks/library/"
                       ++ ToString rt library ++ "/" ++ ToString rt task)))
       (KNormalize callback) ;;;
  ret this.

(** [checkTask], the tick of [taskWait]:
    [self.agent.get(self.config.url + '/api/tasks/' + task).end(...)]. *)
Definition checkTask (self : SRAAPI) (task callback callbackProgress : value)
    : M unit :=
  end_ (agent_get (url (this_config self) ++ "/api/tasks/" ++ ToString rt task))
       (KPoll task callback callbackProgress).

(** The [function(err, res)] that [checkTask] passes to [.end].  The
    guard [res.body._id && res.body.status] reads the status only when
    the ID is truthy; the [switch] compares with [===]; in the
    [processing] case the percent is stored into the progress object of
    the body, the very object handed to [callbackProgress]. *)
Definition checkTask_end (self : SRAAPI) (task callback callbackProgress : value)
    (err : value) (res : response) : M unit :=
  let again := setTimeout (KCheckTask task callback callbackProgress)
                 (pollFreq (this_config self)) in
  if truthy err then call ECallback "callback" callback [err]
  else
    id <- lift (get (body res) "_id") ;;
    both <- (if truthy id then lift (get (body res) "status") else ret id) ;;
    if truthy both then
      st <- lift (get (body res) "status") ;;
      if is_str st "completed" then _handleResponse err res callback
      else if is_str st "pending" then again
      else if is_str st "error" then
        call ECallback "callback" callback [VStr "Task error"]
      else if is_str st "processing" then
        (if isFunction callbackProgress then
           progress <- lift (get (body res) "progress") ;;
           current <- lift (get progress "current") ;;
           max <- lift (get progress "max") ;;
           let percent :=
             Math_ceil (fmul (fdiv (ToNumber rt current) (ToNumber rt max))
                             (of_Z 100)) in
           let body' :=
             match progress with
             | VObj _ => put (body res) "progress"
                           (put progress "percent" (VNum percent))
             | _ => body res
             end in
           call EProgress "callbackProgress" callbackProgress [body']
         else ret tt) ;;;
        again
      else
        call ECallback "callback" callback
          [VStr ("Unknown server task status: " ++ string_of_Z (status res))]
    else call ECallback "callback" callback [VStr "Empty response"].

(** [this.taskWait = function(task, callback, callbackProgress)]: the
    first tick, then [return this]. *)
Definition taskWait (this : SRAAPI) (task callback callbackProgress : value)
    : M SRAAPI :=
  checkTask this task callback callbackProgress ;;;
  ret this.

(** [this.getLibraryReferences = function(library, query, callback)]:
<<
    this.agent.get(config.url + '/api/references')
        .query(_.merge({}, {library: library._id}, query))
        .end((err, res) => this._handleResponse(err, res, callback));
>>
    [config] is a free identifier here, not [this.config]; the
    parameter [query] is [query_] below. *)
Definition getLibraryReferences (this : SRAAPI) (library query_ callback : value)
    : M SRAAPI :=
  cfg <- lift (resolve "config") ;;
  base <- lift (get cfg "url") ;;
  id <- lift (get library "_id") ;;
  end_ (query (merge [] [VObj [("library", id)]; query_])
          (agent_get (ToString rt base ++ "/api/references")))
       (KNormalize callback) ;;;
  ret this.

(** Running a closure on what superagent delivers. *)
Definition apply_closure (this : SRAAPI) (k : closure) (err : value)
    (res : response) : M unit :=
  match k with
  | KNormalize callback => _handleResponse err res callback
  | KPoll task callback callbackProgress =>
      checkTask_end this task callback callbackProgress err res
  end.

Definition apply_thunk (this : SRAAPI) (f : thunk) : M unit :=
  match f with
  | KCheckTask task callback callbackProgress =>
      checkTask this task callback callbackProgress
  end.

End Client.

(** The body of the [processing] case of [checkTask]'s callback, and
    the [setTimeout] after it. *)
Definition processing_case (rt : runtime) (self : SRAAPI)
    (task callback callbackProgress : value) (res : response) : M unit :=
  (if isFunction callbackProgress then
     progress <- lift (get (body res) "progress") ;;
     current <- lift (get progress "current") ;;
     max <- lift (get progress "max") ;;
     call EProgress "callbackProgress" callbackProgress
       [match progress with
        | VObj _ =>
            put (body res) "progress"
              (put progress "percent"
                 (VNum (Math_ceil (fmul (fdiv (ToNumber rt current)
                                              (ToNumber rt max))
                                        (of_Z 100)))))
        | _ => body res
        end]
   else ret tt) ;;;
  setTimeout (KCheckTask task callback callbackProgress)
    (pollFreq (this_config self)).

(* ================================================================== *)
(** ** The event loop *)
(* ================================================================== *)

(** Requests awaiting their response and timers awaiting their delay,
    each with the closure to run; the effects so far; the exceptions
    nothing caught. *)
Record world : Type := {
  log : list effect;
  inflight : list closure;
  timers : list thunk;
  uncaught : list exn
}.

Definition idle : world :=
  {| log := []; inflight := []; timers := []; uncaught := [] |}.

Fixpoint sends (es : list effect) : list closure :=
  match es with
  | [] => []
  | ESend _ k :: es' => k :: sends es'
  | _ :: es' => sends es'
  end.

Fixpoint timeouts (es : list effect) : list thunk :=
  match es with
  | [] => []
  | ESetTimeout f _ :: es' => f :: timeouts es'
  | _ :: es' => timeouts es'
  end.

Fixpoint completions (es : list effect) : nat :=
  match es with
  | [] => O
  | ECallback _ :: es' => S (completions es')
  | _ :: es' => completions es'
  end.

Fixpoint progressions (es : list effect) : nat :=
  match es with
  | [] => O
  | EProgress _ :: es' => S (progressions es')
  | _ :: es' => progressions es'
  end.

Definition requests (es : list effect) : nat := List.length (sends es).

(** The world after a piece of the client's code has run in it. *)
Definition absorb {A} (w : world) (m : M A) : world :=
  {| log := (log w ++ effects m)%list;
     inflight := (inflight w ++ sends (effects m))%list;
     timers := (timers w ++ timeouts (effects m))%list;
     uncaught := (uncaught w ++
                  match outcome m with inl e => [e] | inr _ => [] end)%list |}.

Fixpoint remove_nth {A} (n : nat) (l : list A) : list A :=
  match n, l with
  | _, [] => []
  | O, _ :: l' => l'
  | S n', a :: l' => a :: remove_nth n' l'
  end.

(** What the environment does: answer the [n]-th request in flight, or
    let the [n]-th timer expire. *)
Inductive input : Type :=
| Respond (n : nat) (err : value) (res : response)
| Fire (n : nat).

Section Loop.

Variable rt : runtime.
Variable this : SRAAPI.

Definition step (w : world) (i : input) : option world :=
  match i with
  | Respond n err res =>
      match nth_error (inflight w) n with
      | Some k =>
          Some (absorb {| log := log w; inflight := remove_nth n (inflight w);
                          timers := timers w; uncaught := uncaught w |}
                       (apply_closure rt this k err res))
      | None => None
      end
  | Fire n =>
      match nth_error (timers w) n with
      | Some f =>
          Some (absorb {| log := log w; inflight := inflight w;
                          timers := remove_nth n (timers w);
                          uncaught := uncaught w |}
                       (apply_thunk rt this f))
      | None => None
      end
  end.

Fixpoint run (w : world) (ins : list input) : option world :=
  match ins with
  | [] => Some w
  | i :: ins' =>
      match step w i with
      | Some w' => run w' ins'
      | None => None
      end
  end.

End Loop.

Definition fired (ins : list input) : nat :=
  List.length (filter (fun i => match i with Fire _ => true | _ => false end) ins).

(** What a poll response is, by the tests [checkTask]'s callback makes
    on it, in the order it makes them. *)
Inductive observation : Type :=
| TransportFailed
| Unreadable        (* [res.body] is [undefined] or [null]: reading it throws *)
| EmptyResponse
| Completed
| Pending
| TaskError
| Processing
| UnknownStatus.

Definition observe (err : value) (res : response) : observation :=
  if truthy err then TransportFailed
  else
    match get (body res) "_id", get (body res) "status" with
    | inr id, inr st =>
        if truthy id && truthy st then
          if is_str st "completed" then Completed
          else if is_str st "pending" then Pending
          else if is_str st "error" then TaskError
          else if is_str st "processing" then Processing
          else UnknownStatus
        else EmptyResponse
    | _, _ => Unreadable
    end.

Definition terminal (o : observation) : bool :=
  match o with
  | TransportFailed | EmptyResponse | Completed | TaskError | UnknownStatus => true
  | Unreadable | Pending | Processing => false
  end.

Definition terminal_input (i : input) : bool :=
  match i with
  | Respond _ err res => terminal (observe err res)
  | Fire _ => false
  end.

(** The world right after the call [taskWait(task, callback,
    callbackProgress)] has returned. *)
Definition poll_start (rt : runtime) (this : SRAAPI)
    (task callback callbackProgress : value) : world :=
  absorb idle (taskWait rt this task callback callbackProgress).

(** The shape of every world a [taskWait] reaches: a request in flight,
    or the timer of the next tick armed, or neither, and then the last
    input was the response that ended the loop. *)
Definition poll_inv (task callback callbackProgress : value)
    (ins : list input) (w : world) : Prop :=
  requests (log w) = S (fired ins) /\
  ((inflight w = [KPoll task callback callbackProgress] /\ timers w = [] /\
    existsb terminal_input ins = false /\ completions (log w) = 0%nat)
   \/
   (inflight w = [] /\ timers w = [KCheckTask task callback callbackProgress] /\
    existsb terminal_input ins = false /\ completions (log w) = 0%nat)
   \/
   (inflight w = [] /\ timers w = [] /\
    exists pre n err res,
      ins = (pre ++ [Respond n err res])%list /\
      existsb terminal_input pre = false /\
      (terminal (observe err res) = true ->
       isFunction callback = true -> completions (log w) = 1%nat))).

(* ================================================================== *)
(** ** The response normalizer, as the specification words it *)
(* ================================================================== *)

(** The three results of section 4.2: a transport error with its cause,
    a server error with the status code, a success with the parsed body.
    A transport error is looked for first. *)
Inductive normalized : Type :=
| TransportError (cause : value)
| ServerError (code : Z)
| Success (parsedBody : value).

Definition normalize (err : value) (res : response) : normalized :=
  if truthy err then TransportError err
  else if statusCode res =? 200 then Success (body res)
  else ServerError (statusCode res).

(** The [(error, value)] arguments that carry a result to a callback. *)
Definition report (n : normalized) : list value :=
  match n with
  | TransportError cause => [cause]
  | ServerError code => [VStr ("Status code: " ++ string_of_Z code)]
  | Success parsedBody => [VNull; parsedBody]
  end.

Definition is_success (n : normalized) : bool :=
  match n with
  | Success _ => true
  | _ => false
  end.

(* ================================================================== *)
(** ** Sample data *)
(* ================================================================== *)

Module Sample.

(** A runtime that sends every coercion of ill-typed data to NaN and to a
    fixed string. *)
Definition runtime0 : runtime :=
  {| StringToNumber := fun _ => S754_nan;
     ObjectToNumber := fun _ => S754_nan;
     NumberToString := fun _ => "NaN";
     ObjectToString := fun _ => "[object Object]" |}.

(** The module as [require] loads it: no global named [config]. *)
Definition no_globals : string -> option value := fun _ => None.

(** A global [config] object, were some other script to define one. *)
Definition with_config (x : string) : option value :=
  if (x =? "config")%string then Some (VObj [("url", VStr "http://sra")])
  else None.

Definition fn_done : value := VFun 1.
Definition fn_progress : value := VFun 2.

Definition ok (b : value) : response :=
  {| statusCode := 200; status := 200; body := b |}.

Definition accepted (b : value) : response :=
  {| statusCode := 202; status := 202; body := b |}.

(** What stands for [res] where superagent passes none along with an
    error. *)
Definition no_response : response :=
  {| statusCode := 0; status := 0; body := VUndef |}.

Definition task_body (st : string) : value :=
  VObj [("_id", VStr "t1"); ("status", VStr st)].

Definition progress_body (current max_ : Z) : value :=
  VObj [("_id", VStr "t1"); ("status", VStr "processing");
        ("progress", VObj [("current", VNum (of_Z current));
                           ("max", VNum (of_Z max_))])].

(** The body of the specification's example, which has no [_id]. *)
Definition bare_progress_body : value :=
  VObj [("status", VStr "processing");
        ("progress", VObj [("current", VNum (of_Z 3));
                           ("max", VNum (of_Z 4))])].

(** A task seen pending, then completed. *)
Definition pending_then_completed : list input :=
  [Respond 0 VNull (ok (task_body "pending")); Fire 0;
   Respond 0 VNull (ok (task_body "completed"))].

End Sample.

(* ================================================================== *)
(** ** Further observations of a run *)
(* ================================================================== *)

(** The arguments of the calls of the completion callback, oldest
    first; the requests sent; the delays of the timers armed. *)
Fixpoint callbacks (es : list effect) : list (list value) :=
  match es with
  | [] => []
  | ECallback args :: es' => args :: callbacks es'
  | _ :: es' => callbacks es'
  end.

Fixpoint sent (es : list effect) : list request :=
  match es with
  | [] => []
  | ESend r _ :: es' => r :: sent es'
  | _ :: es' => sent es'
  end.

Fixpoint delays (es : list effect) : list Z :=
  match es with
  | [] => []
  | ESetTimeout _ d :: es' => d :: delays es'
  | _ :: es' => delays es'
  end.

Definition responses (ins : list input) : nat :=
  List.length (filter (fun i => match i with Respond _ _ _ => true | _ => false end)
                      ins).

(** The two shapes of an error-first call: an error and nothing else,
    or [null] and a value. *)
Definition error_only (args : list value) : bool :=
  match args with
  | [e] => truthy e
  | _ => false
  end.

Definition value_only (args : list value) : bool :=
  match args with
  | [VNull; _] => true
  | _ => false
  end.

Definition nullish (v : value) : bool :=
  match v with
  | VUndef | VNull => true
  | _ => false
  end.

(** A response on which no read of [checkTask]'s callback throws: an
    error, or a body that is not nullish and whose progress, where a
    progress callback will read it, is not nullish either. *)
Definition readable (callbackProgress err : value) (res : response) : bool :=
  truthy err ||
  (negb (nullish (body res)) &&
   match observe err res with
   | Processing =>
       negb (isFunction callbackProgress) ||
       match get (body res) "progress" with
       | inr progress => negb (nullish progress)
       | inl _ => false
       end
   | _ => true
   end).

Definition readable_input (callbackProgress : value) (i : input) : bool :=
  match i with
  | Respond _ err res => readable callbackProgress err res
  | Fire _ => true
  end.

(** Polls answered one after the other: after each of [rs] the timer
    expires, then comes [last]. *)
Definition polls (rs : list (value * response)) (last : value * response)
    : list input :=
  (flat_map (fun r => [Respond 0 (fst r) (snd r); Fire 0]) rs
   ++ [Respond 0 (fst last) (snd last)])%list.

(** A single-request operation has been called: its request is in
    flight, to be answered through [_handleResponse]. *)
Definition awaiting (callback : value) (w : world) : Prop :=
  requests (log w) = 1%nat /\ completions (log w) = 0%nat /\
  inflight w = [KNormalize callback] /\ timers w = [] /\ uncaught w = [].

(** [Math.ceil(current / max * 100)] on integers, and the exact
    ceiling of the ratio for comparison. *)
Definition percent_of (current max_ : Z) : number :=
  Math_ceil (fmul (fdiv (of_Z current) (of_Z max_)) (of_Z 100)).

Definition exact_percent (current max_ : Z) : Z :=
  (100 * current + max_ - 1) / max_.

Definition number_eqb (x y : number) : bool :=
  match x, y with
  | S754_zero a, S754_zero b => Bool.eqb a b
  | S754_infinity a, S754_infinity b => Bool.eqb a b
  | S754_nan, S754_nan => true
  | S754_finite a m e, S754_finite b m' e' =>
      Bool.eqb a b && (m =? m')%positive && (e =? e')
  | _, _ => false
  end.

(** The percent is the exact ceiling, or one above it and still at most
    100. *)
Definition percent_ok (current max_ : Z) : bool :=
  let e := exact_percent current max_ in
  number_eqb (percent_of current max_) (of_Z e) ||
  (number_eqb (percent_of current max_) (of_Z (e + 1)) && (e + 1 <=? 100)).

Definition percent_ok_upto (n : nat) : bool :=
  forallb (fun m => forallb (fun c => percent_ok (Z.of_nat c) (Z.of_nat m))
                            (seq 0 (S m)))
          (seq 1 n).

(* ================================================================== *)
(** ** Basic facts *)
(* ================================================================== *)

Lemma bind_ret_l {A B} (a : A) (k : A -> M B) : bind (ret a) k = k a.
Proof. unfold bind, ret. destruct (k a); reflexivity. Qed.

Lemma bind_lift_inr {A B} (a : A) (k : A -> M B) : bind (lift (inr a)) k = k a.
Proof. apply bind_ret_l. Qed.

Lemma call_function e name f args :
  isFunction f = true -> call e name f args = ([e args], inr tt).
Proof. unfold call. intros ->. reflexivity. Qed.

Lemma call_not_function e name f args :
  isFunction f = false ->
  call e name f args = ([], inl (TypeError (name ++ " is not a function"))).
Proof. unfold call. intros ->. reflexivity. Qed.

Lemma lookup_assign_same k v o : lookup k (assign k v o) = Some v.
Proof.
  induction o as [|[k' v'] o IH]; simpl.
  - now rewrite String.eqb_refl.
  - destruct (k =? k')%string eqn:E; simpl; rewrite E; auto.
Qed.

Lemma lookup_assign_other k k' v o :
  k <> k' -> lookup k (assign k' v o) = lookup k o.
Proof.
  intros Hne. induction o as [|[k1 v1] o IH]; simpl.
  - destruct (k =? k')%string eqn:E; auto.
    apply String.eqb_eq in E. contradiction.
  - destruct (k' =? k1)%string eqn:E1; simpl.
    + apply String.eqb_eq in E1. subst k1.
      destruct (k =? k')%string eqn:E; auto.
      apply String.eqb_eq in E. contradiction.
    + destruct (k =? k1)%string; auto.
Qed.

Lemma lookup_None_notin k o : lookup k o = None <-> ~ In k (map fst o).
Proof.
  induction o as [|[k' v'] o IH]; simpl.
  - tauto.
  - destruct (k =? k')%string eqn:E.
    + apply String.eqb_eq in E. subst. split; [discriminate | tauto].
    + apply String.eqb_neq in E. rewrite IH. split.
      * intros H [H1 | H1]; [congruence | tauto].
      * tauto.
Qed.

Lemma assign_keys k v o :
  map fst (assign k v o) =
  if has k o then map fst o else (map fst o ++ [k])%list.
Proof.
  unfold has. induction o as [|[k' v'] o IH]; simpl; auto.
  destruct (k =? k')%string eqn:E; simpl; auto.
  rewrite IH. destruct (lookup k o); reflexivity.
Qed.

Lemma assign_NoDup k v o : NoDup (map fst o) -> NoDup (map fst (assign k v o)).
Proof.
  intros H. rewrite assign_keys. unfold has.
  destruct (lookup k o) eqn:E; auto.
  apply lookup_None_notin in E.
  apply NoDup_app; auto.
  - constructor; [intros [] | constructor].
  - intros x Hx [Hk | []]. subst. contradiction.
Qed.

(* ================================================================== *)
(** ** One poll *)
(* ================================================================== *)

Section PollFacts.

Variable rt : runtime.
Variable self : SRAAPI.
Variables task callback callbackProgress : value.

Let again : M unit :=
  setTimeout (KCheckTask task callback callbackProgress)
    (pollFreq (this_config self)).

Let handler := checkTask_end rt self task callback callbackProgress.

(** The callback of [checkTask] past its guard [res.body._id &&
    res.body.status]: the [switch]. *)
Lemma checkTask_end_dispatch err res id st :
  truthy err = false ->
  get (body res) "_id" = inr id -> truthy id = true ->
  get (body res) "status" = inr st -> truthy st = true ->
  handler err res =
    if is_str st "completed" then _handleResponse err res callback
    else if is_str st "pending" then again
    else if is_str st "error" then
      call ECallback "callback" callback [VStr "Task error"]
    else if is_str st "processing" then
      processing_case rt self task callback callbackProgress res
    else call ECallback "callback" callback
           [VStr ("Unknown server task status: " ++ string_of_Z (status res))].
Proof.
  intros He Hid Tid Hst Tst.
  unfold handler, checkTask_end, processing_case, again.
  rewrite He, Hid, bind_lift_inr, Tid, Hst, !bind_lift_inr, Tst.
  reflexivity.
Qed.

(** Short of the guard. *)
Lemma checkTask_end_empty err res id st :
  truthy err = false ->
  get (body res) "_id" = inr id ->
  get (body res) "status" = inr st ->
  truthy id && truthy st = false ->
  handler err res = call ECallback "callback" callback [VStr "Empty response"].
Proof.
  intros He Hid Hst Hg.
  unfold handler, checkTask_end.
  rewrite He, Hid, bind_lift_inr.
  destruct (truthy id) eqn:Tid.
  - simpl in Hg. rewrite Hst, bind_lift_inr, Hg. reflexivity.
  - rewrite bind_ret_l, Tid. reflexivity.
Qed.

Lemma checkTask_end_transport err res :
  truthy err = true ->
  handler err res = call ECallback "callback" callback [err].
Proof. intros He. unfold handler, checkTask_end. now rewrite He. Qed.

Lemma get_total v k : (exists x, get v k = inr x) \/ (v = VUndef \/ v = VNull).
Proof. destruct v; simpl; eauto. Qed.

Lemma get_nullish v k : v = VUndef \/ v = VNull -> exists msg, get v k = inl (TypeError msg).
Proof. intros [-> | ->]; simpl; eauto. Qed.

Lemma checkTask_end_unreadable err res :
  truthy err = false ->
  body res = VUndef \/ body res = VNull ->
  exists msg, handler err res = ([], inl (TypeError msg)).
Proof.
  intros He Hb. unfold handler, checkTask_end. rewrite He.
  destruct (get_nullish _ "_id" Hb) as [msg ->]. exists msg. reflexivity.
Qed.

(** The callback of [checkTask], by what it observes. *)
Lemma checkTask_end_by_observation err res :
  match observe err res with
  | TransportFailed =>
      handler err res = call ECallback "callback" callback [err]
  | Unreadable => exists msg, handler err res = ([], inl (TypeError msg))
  | EmptyResponse =>
      handler err res = call ECallback "callback" callback [VStr "Empty response"]
  | Completed =>
      truthy err = false /\ handler err res = _handleResponse err res callback
  | Pending => handler err res = again
  | TaskError =>
      handler err res = call ECallback "callback" callback [VStr "Task error"]
  | Processing =>
      handler err res = processing_case rt self task callback callbackProgress res
  | UnknownStatus =>
      handler err res =
      call ECallback "callback" callback
        [VStr ("Unknown server task status: " ++ string_of_Z (status res))]
  end.
Proof.
  unfold observe.
  destruct (truthy err) eqn:He; [now apply checkTask_end_transport|].
  destruct (get_total (body res) "_id") as [[id Hid] | Hn].
  2:{ destruct Hn as [Hn | Hn]; rewrite Hn;
      apply checkTask_end_unreadable; auto; rewrite Hn; auto. }
  destruct (get_total (body res) "status") as [[st Hst] | Hn].
  2:{ destruct Hn as [Hn | Hn]; rewrite Hn in Hid; discriminate. }
  rewrite Hid, Hst.
  destruct (truthy id && truthy st) eqn:Hg.
  - apply andb_prop in Hg. destruct Hg as [Tid Tst].
    pose proof (checkTask_end_dispatch err res id st He Hid Tid Hst Tst) as D.
    fold again in D.
    destruct (is_str st "completed"); [split; [reflexivity | assumption]|].
    destruct (is_str st "pending"); [assumption|].
    destruct (is_str st "error"); [assumption|].
    destruct (is_str st "processing"); assumption.
  - eapply checkTask_end_empty; eauto.
Qed.

End PollFacts.

(* ================================================================== *)
(** ** Counting effects *)
(* ================================================================== *)

Lemma sends_app l1 l2 : sends (l1 ++ l2) = (sends l1 ++ sends l2)%list.
Proof.
  induction l1 as [|[] l1 IH]; simpl; auto. now rewrite IH.
Qed.

Lemma timeouts_app l1 l2 : timeouts (l1 ++ l2) = (timeouts l1 ++ timeouts l2)%list.
Proof.
  induction l1 as [|[] l1 IH]; simpl; auto. now rewrite IH.
Qed.

Lemma completions_app l1 l2 :
  completions (l1 ++ l2) = (completions l1 + completions l2)%nat.
Proof.
  induction l1 as [|[] l1 IH]; simpl; auto.
Qed.

Lemma requests_app l1 l2 : requests (l1 ++ l2) = (requests l1 + requests l2)%nat.
Proof. unfold requests. now rewrite sends_app, length_app. Qed.

Lemma fired_app l1 l2 : fired (l1 ++ l2) = (fired l1 + fired l2)%nat.
Proof. unfold fired. now rewrite filter_app, length_app. Qed.

Lemma fired_respond ins n err res : fired (ins ++ [Respond n err res]) = fired ins.
Proof. rewrite fired_app. unfold fired at 2. simpl. lia. Qed.

Lemma fired_fire ins n : fired (ins ++ [Fire n]) = S (fired ins).
Proof. rewrite fired_app. unfold fired at 2. simpl. lia. Qed.

Lemma run_app rt this l1 l2 w :
  run rt this w (l1 ++ l2) =
  match run rt this w l1 with
  | Some w' => run rt this w' l2
  | None => None
  end.
Proof.
  revert w. induction l1 as [|i l1 IH]; intros w; simpl; auto.
  destruct (step rt this w i); auto.
Qed.

Section PollCounts.

Variable rt : runtime.
Variable self : SRAAPI.
Variables task callback callbackProgress : value.

Let handler := checkTask_end rt self task callback callbackProgress.
Let tick := KCheckTask task callback callbackProgress.

Lemma call_callback_counts args :
  let es := effects (call ECallback "callback" callback args) in
  sends es = [] /\ timeouts es = [] /\
  (isFunction callback = true -> completions es = 1%nat).
Proof.
  unfold call. destruct (isFunction callback); simpl; auto.
  repeat split; auto. discriminate.
Qed.

Lemma handleResponse_counts err res :
  let es := effects (_handleResponse err res callback) in
  sends es = [] /\ timeouts es = [] /\
  (isFunction callback = true -> completions es = 1%nat).
Proof.
  unfold _handleResponse, call.
  destruct (isFunction callback); simpl.
  - destruct (truthy err); simpl; auto.
    destruct (statusCode res =? 200); simpl; auto.
  - repeat split; auto. discriminate.
Qed.

Lemma processing_counts res :
  let es := effects (processing_case rt self task callback callbackProgress res) in
  sends es = [] /\ completions es = 0%nat /\
  (timeouts es = [] \/ timeouts es = [tick]).
Proof.
  unfold processing_case, call, setTimeout.
  destruct (isFunction callbackProgress); simpl; auto.
  destruct (get (body res) "progress") as [e | progress]; simpl; auto.
  destruct (get progress "current") as [e | current]; simpl; auto.
  destruct (get progress "max") as [e | max]; simpl; auto.
Qed.

(** What one run of [checkTask]'s callback adds: never a request; after
    a terminal observation no timer and, to a callback that is a
    function, one call; otherwise no call and at most the timer of the
    next tick. *)
Lemma checkTask_end_counts err res :
  let es := effects (handler err res) in
  sends es = [] /\
  if terminal (observe err res) then
    timeouts es = [] /\ (isFunction callback = true -> completions es = 1%nat)
  else
    completions es = 0%nat /\ (timeouts es = [] \/ timeouts es = [tick]).
Proof.
  pose proof (checkTask_end_by_observation rt self task callback
                callbackProgress err res) as H.
  fold handler in H.
  destruct (observe err res); simpl terminal; cbv zeta.
  - rewrite H. destruct (call_callback_counts [err]) as (? & ? & ?); auto.
  - destruct H as [msg ->]. simpl. auto.
  - rewrite H.
    destruct (call_callback_counts [VStr "Empty response"]) as (? & ? & ?); auto.
  - destruct H as [_ ->].
    destruct (handleResponse_counts err res) as (? & ? & ?); auto.
  - rewrite H. simpl. auto.
  - rewrite H.
    destruct (call_callback_counts [VStr "Task error"]) as (? & ? & ?); auto.
  - rewrite H. destruct (processing_counts res) as (? & ? & ?); auto.
  - rewrite H.
    destruct (call_callback_counts
                [VStr ("Unknown server task status: " ++ string_of_Z (status res))])
      as (? & ? & ?); auto.
Qed.

(* ================================================================== *)
(** ** The poll loop *)
(* ================================================================== *)

Let inv := poll_inv task callback callbackProgress.

Lemma poll_inv_start :
  inv [] (poll_start rt self task callback callbackProgress).
Proof.
  unfold inv, poll_inv, poll_start. split; [reflexivity|].
  left. repeat split; reflexivity.
Qed.

Lemma nth_error_singleton {A} (a b : A) n :
  nth_error [a] n = Some b -> n = O /\ b = a.
Proof.
  destruct n as [|n]; simpl.
  - intros [= <-]. auto.
  - destruct n; discriminate.
Qed.

Lemma poll_inv_step ins w i w' :
  inv ins w -> step rt self w i = Some w' -> inv (ins ++ [i]) w'.
Proof.
  intros [Hreq Hshape] Hstep.
  destruct Hshape as [(Hin & Htm & Hnt & Hc) | [(Hin & Htm & Hnt & Hc) | (Hin & Htm & _)]].
  - (* a request is in flight *)
    destruct i as [n err res | n]; simpl in Hstep;
      [|rewrite Htm in Hstep; destruct n; discriminate].
    rewrite Hin in Hstep.
    destruct (nth_error [KPoll task callback callbackProgress] n) as [k|] eqn:Hn;
      [|discriminate].
    apply nth_error_singleton in Hn. destruct Hn as [-> ->].
    injection Hstep as <-. simpl apply_closure. simpl remove_nth.
    destruct (checkTask_end_counts err res) as [Hs Hrest].
    fold handler. unfold inv, poll_inv, absorb; simpl log; simpl inflight; simpl timers.
    rewrite requests_app, fired_respond, completions_app, existsb_app, Hs, Htm.
    unfold requests at 2. rewrite Hs. simpl.
    split; [rewrite Hreq; simpl; lia|].
    destruct (terminal (observe err res)) eqn:Ht.
    + destruct Hrest as [-> Hcb]. right; right. repeat split; auto.
      exists ins, O, err, res. repeat split; auto.
      intros _ Hf. rewrite Hc, (Hcb Hf). reflexivity.
    + destruct Hrest as [Hz [-> | ->]].
      * right; right. repeat split; auto.
        exists ins, O, err, res. repeat split; auto.
        rewrite Ht. discriminate.
      * right; left. repeat split; auto.
        -- rewrite Hnt. reflexivity.
        -- rewrite Hc, Hz. reflexivity.
  - (* the timer is armed *)
    destruct i as [n err res | n]; simpl in Hstep;
      [rewrite Hin in Hstep; destruct n; discriminate|].
    rewrite Htm in Hstep.
    destruct (nth_error [KCheckTask task callback callbackProgress] n) as [f|] eqn:Hn;
      [|discriminate].
    apply nth_error_singleton in Hn. destruct Hn as [-> ->].
    injection Hstep as <-.
    unfold inv, poll_inv, absorb; simpl.
    rewrite requests_app, fired_fire, completions_app, existsb_app, Hin.
    simpl. split; [rewrite Hreq; unfold requests; simpl; lia|].
    left. repeat split; auto.
    + rewrite Hnt. reflexivity.
    + rewrite Hc. reflexivity.
  - (* the loop has ended *)
    destruct i as [n err res | n]; simpl in Hstep.
    + rewrite Hin in Hstep. destruct n; discriminate.
    + rewrite Htm in Hstep. destruct n; discriminate.
Qed.

Lemma poll_inv_run ins w :
  run rt self (poll_start rt self task callback callbackProgress) ins = Some w ->
  poll_inv task callback callbackProgress ins w.
Proof.
  revert w. induction ins as [|i ins IH] using rev_ind; intros w.
  - simpl. intros [= <-]. apply poll_inv_start.
  - rewrite run_app.
    destruct (run rt self _ ins) as [w0|] eqn:Hr; [|discriminate].
    simpl. destruct (step rt self w0 i) as [w1|] eqn:Hs; [|discriminate].
    intros [= <-]. exact (poll_inv_step ins w0 i w1 (IH w0 eq_refl) Hs).
Qed.

End PollCounts.

(* ================================================================== *)
(** ** Claims about the poll loop *)
(* ================================================================== *)

Import Sample.

(** C1 (amended: the completion callback is counted where one was
    supplied).  In every world a [taskWait] invocation reaches, at most
    one poll timer is outstanding (and never together with a request in
    flight); [checkTask], the tick, sends exactly one request, so the
    requests sent are the first tick's plus one per expired timer; and
    once a terminal observation (transport error, empty response,
    completed, task error, unknown status) has been made, that response
    is the last thing that ran: no timer or request is left, so nothing
    can run and no further request is sent, and a completion callback
    that is a function has been invoked exactly once over the whole
    invocation. *)
Theorem taskWait_poll_loop rt this task callback callbackProgress ins w :
  run rt this (poll_start rt this task callback callbackProgress) ins = Some w ->
  (List.length (timers w) + List.length (inflight w) <= 1)%nat /\
  requests (effects (checkTask rt this task callback callbackProgress)) = 1%nat /\
  requests (log w) = S (fired ins) /\
  (existsb terminal_input ins = true ->
   (forall i, step rt this w i = None) /\
   (exists pre n err res,
      ins = (pre ++ [Respond n err res])%list /\
      terminal (observe err res) = true /\
      existsb terminal_input pre = false) /\
   (isFunction callback = true -> completions (log w) = 1%nat)).
Proof.
  intros Hrun. apply poll_inv_run in Hrun.
  destruct Hrun as [Hreq Hshape].
  split; [|split; [reflexivity|split; [exact Hreq|]]].
  - destruct Hshape as [(-> & -> & _) | [(-> & -> & _) | (-> & -> & _)]];
      simpl; lia.
  - intros Hterm.
    destruct Hshape as [(_ & _ & Hnt & _) | [(_ & _ & Hnt & _) | (Hin & Htm & Hlast)]];
      try congruence.
    destruct Hlast as (pre & n & err & res & -> & Hpre & Hcb).
    rewrite existsb_app, Hpre in Hterm. simpl in Hterm.
    rewrite orb_false_r in Hterm.
    split; [|split].
    + intros [k e r | k]; simpl.
      * rewrite Hin. destruct k; reflexivity.
      * rewrite Htm. destruct k; reflexivity.
    + exists pre, n, err, res. auto.
    + auto.
Qed.

Lemma taskWait_poll_loop_witness :
  exists w,
    run runtime0 new_SRAAPI
      (poll_start runtime0 new_SRAAPI (VStr "t1") fn_done fn_progress)
      pending_then_completed = Some w /\
    requests (log w) = 2%nat /\
    (existsb terminal_input pending_then_completed = true ->
     isFunction fn_done = true -> completions (log w) = 1%nat).
Proof.
  eexists. split; [reflexivity|].
  destruct (taskWait_poll_loop runtime0 new_SRAAPI (VStr "t1") fn_done
              fn_progress pending_then_completed _ eq_refl)
    as (_ & _ & Hreq & Hterm).
  split; [exact Hreq|].
  intros Ht Hf. destruct (Hterm Ht) as (_ & _ & Hcb). exact (Hcb Hf).
Defined.

(** C1, as stated, fails where no completion callback is passed: the
    task is observed completed, a terminal state, and no callback has
    been invoked. *)
Lemma taskWait_completed_without_callback :
  exists w,
    run runtime0 new_SRAAPI
      (poll_start runtime0 new_SRAAPI (VStr "t1") VUndef VUndef)
      [Respond 0 VNull (ok (task_body "completed"))] = Some w /\
    terminal (observe VNull (ok (task_body "completed"))) = true /\
    completions (log w) <> 1%nat.
Proof.
  eexists. split; [reflexivity|]. split; [reflexivity|].
  simpl. discriminate.
Qed.

(** C2: a [taskWait] without a completion callback whose poll fails in
    transport does not drop the error: [callback(err)] is evaluated with
    [callback] undefined, and the [TypeError] escapes the response
    handler. *)
Lemma taskWait_without_callback_throws :
  exists w,
    run runtime0 new_SRAAPI
      (poll_start runtime0 new_SRAAPI (VStr "t1") VUndef VUndef)
      [Respond 0 (VStr "ECONNREFUSED") no_response] = Some w /\
    uncaught w = [TypeError "callback is not a function"].
Proof. eexists. split; reflexivity. Qed.

(** So does every poll that ends in anything but a completed task. *)
Lemma checkTask_end_without_callback rt self task callback callbackProgress
    err res :
  isFunction callback = false ->
  terminal (observe err res) = true ->
  observe err res <> Completed ->
  checkTask_end rt self task callback callbackProgress err res =
  ([], inl (TypeError "callback is not a function")).
Proof.
  intros Hf Ht Hc.
  pose proof (checkTask_end_by_observation rt self task callback
                callbackProgress err res) as H.
  destruct (observe err res); try discriminate; try congruence;
    rewrite H; now apply call_not_function.
Qed.

(** The operations that hand their response to [_handleResponse] do
    drop every outcome when no callback is given. *)
Lemma handleResponse_without_callback err res callback :
  isFunction callback = false ->
  _handleResponse err res callback = ([], inr tt).
Proof. unfold _handleResponse. intros ->. reflexivity. Qed.

(** [getLibraryReferences] throws before it sends anything, callback or
    not, in a module where no global [config] exists. *)
Lemma getLibraryReferences_throws rt this library query_ callback :
  getLibraryReferences rt no_globals this library query_ callback =
  ([], inl (ReferenceError "config is not defined")).
Proof. reflexivity. Qed.

(* ================================================================== *)
(** ** Claims about one poll response *)
(* ================================================================== *)

Lemma handleResponse_function err res callback :
  isFunction callback = true ->
  _handleResponse err res callback =
  ([ECallback (report (normalize err res))], inr tt).
Proof.
  intros Hf. unfold _handleResponse, normalize, call. rewrite Hf. simpl.
  destruct (truthy err); [reflexivity|].
  destruct (statusCode res =? 200); reflexivity.
Qed.

(** C4 (amended: the guard is [res.body._id && res.body.status]).  After
    a successful transport, with a completion callback, the poll reports
    "Empty response" (and arms no timer) exactly when the body lacks a
    truthy [_id] or lacks a truthy [status]; only a body that has both
    goes on to the dispatch on its status. *)
Theorem empty_response_iff rt self task callback callbackProgress err res id st :
  isFunction callback = true ->
  truthy err = false ->
  get (body res) "_id" = inr id ->
  get (body res) "status" = inr st ->
  (In (ECallback [VStr "Empty response"])
      (effects (checkTask_end rt self task callback callbackProgress err res))
   <-> truthy id && truthy st = false) /\
  (truthy id && truthy st = false ->
   checkTask_end rt self task callback callbackProgress err res =
   ([ECallback [VStr "Empty response"]], inr tt)) /\
  (truthy id && truthy st = true ->
   observe err res <> EmptyResponse /\
   checkTask_end rt self task callback callbackProgress err res =
     if is_str st "completed" then _handleResponse err res callback
     else if is_str st "pending" then
       setTimeout (KCheckTask task callback callbackProgress)
         (pollFreq (this_config self))
     else if is_str st "error" then
       call ECallback "callback" callback [VStr "Task error"]
     else if is_str st "processing" then
       processing_case rt self task callback callbackProgress res
     else call ECallback "callback" callback
            [VStr ("Unknown server task status: " ++ string_of_Z (status res))]).
Proof.
  intros Hf He Hid Hst.
  assert (Hempty : truthy id && truthy st = false ->
            checkTask_end rt self task callback callbackProgress err res =
            ([ECallback [VStr "Empty response"]], inr tt)).
  { intros Hg.
    rewrite (checkTask_end_empty rt self task callback callbackProgress
               err res id st He Hid Hst Hg).
    now apply call_function. }
  assert (Hdisp : truthy id && truthy st = true ->
            checkTask_end rt self task callback callbackProgress err res =
              if is_str st "completed" then _handleResponse err res callback
              else if is_str st "pending" then
                setTimeout (KCheckTask task callback callbackProgress)
                  (pollFreq (this_config self))
              else if is_str st "error" then
                call ECallback "callback" callback [VStr "Task error"]
              else if is_str st "processing" then
                processing_case rt self task callback callbackProgress res
              else call ECallback "callback" callback
                     [VStr ("Unknown server task status: "
                            ++ string_of_Z (status res))]).
  { intros Hg. apply andb_prop in Hg. destruct Hg as [Tid Tst].
    now apply (checkTask_end_dispatch rt self task callback callbackProgress
                 err res id st). }
  split; [|split; [exact Hempty|]].
  - split.
    + intros Hin. destruct (truthy id && truthy st) eqn:Hg; [|reflexivity].
      exfalso. rewrite (Hdisp eq_refl) in Hin.
      destruct (is_str st "completed").
      { rewrite (handleResponse_function _ _ _ Hf) in Hin.
        unfold normalize in Hin. rewrite He in Hin.
        destruct (statusCode res =? 200); simpl in Hin;
          destruct Hin as [Hin | []]; discriminate. }
      destruct (is_str st "pending").
      { simpl in Hin. destruct Hin as [Hin | []]. discriminate. }
      destruct (is_str st "error").
      { rewrite (call_function _ _ _ _ Hf) in Hin. simpl in Hin.
        destruct Hin as [Hin | []]. discriminate. }
      destruct (is_str st "processing").
      { unfold processing_case, call, setTimeout in Hin.
        destruct (isFunction callbackProgress); simpl in Hin.
        - destruct (get (body res) "progress") as [e | progress];
            simpl in Hin; [contradiction|].
          destruct (get progress "current") as [e | current];
            simpl in Hin; [contradiction|].
          destruct (get progress "max") as [e | max];
            simpl in Hin; [contradiction|].
          destruct Hin as [Hin | [Hin | []]]; discriminate.
        - destruct Hin as [Hin | []]. discriminate. }
      rewrite (call_function _ _ _ _ Hf) in Hin. simpl in Hin.
      destruct Hin as [Hin | []]. discriminate.
    + intros Hg. rewrite (Hempty Hg). simpl. auto.
  - intros Hg. split; [|exact (Hdisp Hg)].
    unfold observe. rewrite He, Hid, Hst, Hg.
    destruct (is_str st "completed"); [discriminate|].
    destruct (is_str st "pending"); [discriminate|].
    destruct (is_str st "error"); [discriminate|].
    destruct (is_str st "processing"); discriminate.
Qed.

Lemma empty_response_iff_witness :
  In (ECallback [VStr "Empty response"])
     (effects (checkTask_end runtime0 new_SRAAPI (VStr "t1") fn_done fn_progress
                 VNull (ok (VObj [("_id", VStr "t1")]))))
  <-> truthy (VStr "t1") && truthy VUndef = false.
Proof.
  exact (proj1 (empty_response_iff runtime0 new_SRAAPI (VStr "t1") fn_done
                  fn_progress VNull (ok (VObj [("_id", VStr "t1")]))
                  (VStr "t1") VUndef eq_refl eq_refl eq_refl eq_refl)).
Defined.

(** C4, as stated, fails on a body that has a status and no ID: it does
    not go on to the dispatch, the poll reports "Empty response" and
    ends. *)
Lemma status_without_id_is_empty_response :
  checkTask_end runtime0 new_SRAAPI (VStr "t1") fn_done fn_progress VNull
    (ok (VObj [("status", VStr "pending")])) =
  ([ECallback [VStr "Empty response"]], inr tt) /\
  get (VObj [("status", VStr "pending")]) "status" = inr (VStr "pending").
Proof. split; reflexivity. Qed.

(** C5: on a body [{_id: "t1", status: "bogus"}] delivered with HTTP
    status 200 the poll ends with one call of the completion callback,
    and the error it carries names [res.status], the HTTP status 200,
    where the claim has the body's status "bogus". *)
Lemma unknown_status_reports_http_status :
  checkTask_end runtime0 new_SRAAPI (VStr "t1") fn_done fn_progress VNull
    (ok (task_body "bogus")) =
  ([ECallback [VStr "Unknown server task status: 200"]], inr tt) /\
  observe VNull (ok (task_body "bogus")) = UnknownStatus.
Proof. split; reflexivity. Qed.

(** Whatever the unknown status is, the error is made from [res.status]
    alone. *)
Lemma unknown_status_message rt self task callback callbackProgress err res :
  observe err res = UnknownStatus ->
  isFunction callback = true ->
  checkTask_end rt self task callback callbackProgress err res =
  ([ECallback [VStr ("Unknown server task status: " ++ string_of_Z (status res))]],
   inr tt).
Proof.
  intros Ho Hf.
  pose proof (checkTask_end_by_observation rt self task callback
                callbackProgress err res) as H.
  rewrite Ho in H. rewrite H. now apply call_function.
Qed.

(** C7 (amended: the body carries a truthy [_id], so that it passes the
    guard; the arithmetic is that of doubles).  For a poll response
    with status "processing" and a progress object with numbers
    [current] and [max], [percent] is
    [Math.ceil(current / max * 100)]; a progress callback, if one was
    supplied, is invoked with the body whose progress carries that
    percent, and then the next tick is scheduled after [pollFreq]; for
    progress 3 of 4 the percent is 75.  With status "pending" no progress
    callback is invoked and the next tick is scheduled. *)
Theorem processing_and_pending rt self task callback callbackProgress
    err res id :
  truthy err = false ->
  get (body res) "_id" = inr id -> truthy id = true ->
  (forall p c m,
     get (body res) "status" = inr (VStr "processing") ->
     get (body res) "progress" = inr (VObj p) ->
     get (VObj p) "current" = inr (VNum c) ->
     get (VObj p) "max" = inr (VNum m) ->
     let percent := Math_ceil (fmul (fdiv c m) (of_Z 100)) in
     checkTask_end rt self task callback callbackProgress err res =
     ((if isFunction callbackProgress then
         [EProgress [put (body res) "progress"
                       (put (VObj p) "percent" (VNum percent))]]
       else []) ++
      [ESetTimeout (KCheckTask task callback callbackProgress)
         (pollFreq (this_config self))], inr tt)%list) /\
  (get (body res) "status" = inr (VStr "pending") ->
   checkTask_end rt self task callback callbackProgress err res =
   ([ESetTimeout (KCheckTask task callback callbackProgress)
       (pollFreq (this_config self))], inr tt)) /\
  Math_ceil (fmul (fdiv (of_Z 3) (of_Z 4)) (of_Z 100)) = of_Z 75.
Proof.
  intros He Hid Tid. split; [|split; [|reflexivity]].
  - intros p c m Hst Hp Hc Hm percent.
    rewrite (checkTask_end_dispatch rt self task callback callbackProgress
               err res id _ He Hid Tid Hst eq_refl).
    simpl. unfold processing_case, call, setTimeout.
    destruct (isFunction callbackProgress); [|reflexivity].
    rewrite Hp, bind_lift_inr, Hc, bind_lift_inr, Hm, bind_lift_inr.
    reflexivity.
  - intros Hst.
    rewrite (checkTask_end_dispatch rt self task callback callbackProgress
               err res id _ He Hid Tid Hst eq_refl).
    reflexivity.
Qed.

Lemma processing_and_pending_witness :
  checkTask_end runtime0 new_SRAAPI (VStr "t1") fn_done fn_progress VNull
    (ok (progress_body 3 4)) =
  ([EProgress
      [VObj [("_id", VStr "t1"); ("status", VStr "processing");
             ("progress", VObj [("current", VNum (of_Z 3));
                                ("max", VNum (of_Z 4));
                                ("percent", VNum (of_Z 75))])]];
    ESetTimeout (KCheckTask (VStr "t1") fn_done fn_progress) 1000], inr tt).
Proof.
  exact (proj1 (processing_and_pending runtime0 new_SRAAPI (VStr "t1") fn_done
                  fn_progress VNull (ok (progress_body 3 4)) (VStr "t1")
                  eq_refl eq_refl eq_refl)
           [("current", VNum (of_Z 3)); ("max", VNum (of_Z 4))]
           (of_Z 3) (of_Z 4) eq_refl eq_refl eq_refl eq_refl).
Defined.

(** C7, as stated, fails on the body
    [{status: "processing", progress: {current: 3, max: 4}}], which has
    no [_id]: no progress callback is invoked and no tick is scheduled,
    the poll ends with "Empty response". *)
Lemma processing_without_id_is_empty_response :
  checkTask_end runtime0 new_SRAAPI (VStr "t1") fn_done fn_progress VNull
    (ok bare_progress_body)
  = ([ECallback [VStr "Empty response"]], inr tt) /\
  progressions (effects (checkTask_end runtime0 new_SRAAPI (VStr "t1") fn_done
                           fn_progress VNull (ok bare_progress_body))) = 0%nat /\
  timeouts (effects (checkTask_end runtime0 new_SRAAPI (VStr "t1") fn_done
                       fn_progress VNull (ok bare_progress_body))) = [].
Proof. repeat split; reflexivity. Qed.

(** Doubles round: 7 of 100 gives 8, since [7 / 100 * 100] is a double
    just above 7. *)
Example percent_7_of_100 :
  Math_ceil (fmul (fdiv (of_Z 7) (of_Z 100)) (of_Z 100)) = of_Z 8.
Proof. reflexivity. Qed.

Lemma fdiv_nan_l y : fdiv S754_nan y = S754_nan.
Proof. destruct y; reflexivity. Qed.

Lemma fdiv_nan_r x : fdiv x S754_nan = S754_nan.
Proof. destruct x; reflexivity. Qed.

(** C9: in the [processing] case with a progress callback, the progress
    of the body is read with no guard.  When the body has no progress
    (or a [null] one) the read throws a [TypeError] out of the handler:
    no callback has been invoked and no tick is scheduled.  When the
    progress is anything else the case runs to its end; and when it is
    an object without a [current] or without a [max], the percent handed
    to the progress callback is NaN. *)
Theorem processing_reads_progress_unguarded rt self task callback
    callbackProgress err res id progress :
  truthy err = false ->
  get (body res) "_id" = inr id -> truthy id = true ->
  get (body res) "status" = inr (VStr "processing") ->
  isFunction callbackProgress = true ->
  get (body res) "progress" = inr progress ->
  (progress = VUndef \/ progress = VNull ->
   exists msg,
     checkTask_end rt self task callback callbackProgress err res =
     ([], inl (TypeError msg))) /\
  (progress <> VUndef -> progress <> VNull ->
   exists body',
     checkTask_end rt self task callback callbackProgress err res =
     ([EProgress [body'];
       ESetTimeout (KCheckTask task callback callbackProgress)
         (pollFreq (this_config self))], inr tt)) /\
  (forall p,
     progress = VObj p ->
     lookup "current" p = None \/ lookup "max" p = None ->
     checkTask_end rt self task callback callbackProgress err res =
     ([EProgress [put (body res) "progress"
                    (put progress "percent" (VNum S754_nan))];
       ESetTimeout (KCheckTask task callback callbackProgress)
         (pollFreq (this_config self))], inr tt)).
Proof.
  intros He Hid Tid Hst Hf Hp.
  rewrite (checkTask_end_dispatch rt self task callback callbackProgress
             err res id _ He Hid Tid Hst eq_refl).
  simpl. unfold processing_case, call, setTimeout.
  rewrite Hf, Hp, bind_lift_inr.
  split; [|split].
  - intros Hn. destruct (get_nullish progress "current" Hn) as [msg ->].
    exists msg. reflexivity.
  - intros H1 H2.
    destruct (get_total progress "current") as [[c ->] | [? | ?]];
      [|contradiction|contradiction].
    destruct (get_total progress "max") as [[m ->] | [? | ?]];
      [|contradiction|contradiction].
    rewrite !bind_lift_inr. eexists. reflexivity.
  - intros p -> Hmiss. simpl get. rewrite !bind_lift_inr.
    destruct Hmiss as [Hmiss | Hmiss]; rewrite Hmiss; simpl ToNumber.
    + rewrite fdiv_nan_l. reflexivity.
    + rewrite fdiv_nan_r. reflexivity.
Qed.

Lemma processing_reads_progress_unguarded_witness :
  exists msg,
    checkTask_end runtime0 new_SRAAPI (VStr "t1") fn_done fn_progress VNull
      (ok (task_body "processing")) = ([], inl (TypeError msg)).
Proof.
  exact (proj1 (processing_reads_progress_unguarded runtime0 new_SRAAPI
                  (VStr "t1") fn_done fn_progress VNull
                  (ok (task_body "processing")) (VStr "t1") VUndef
                  eq_refl eq_refl eq_refl eq_refl eq_refl eq_refl)
           (or_introl eq_refl)).
Defined.

(** C10 (amended: the body carries a truthy [_id], and a completion
    callback was supplied).  For a poll response whose status is "error"
    the poll ends: the completion callback is invoked once, with the
    string 'Task error' as its only argument, and no tick is
    scheduled. *)
Theorem task_error_is_generic rt self task callback callbackProgress err res id :
  truthy err = false ->
  get (body res) "_id" = inr id -> truthy id = true ->
  get (body res) "status" = inr (VStr "error") ->
  isFunction callback = true ->
  checkTask_end rt self task callback callbackProgress err res =
  ([ECallback [VStr "Task error"]], inr tt) /\
  terminal (observe err res) = true.
Proof.
  intros He Hid Tid Hst Hf. split.
  - rewrite (checkTask_end_dispatch rt self task callback callbackProgress
               err res id _ He Hid Tid Hst eq_refl).
    simpl. now apply call_function.
  - unfold observe. rewrite He, Hid, Hst, Tid. reflexivity.
Qed.

Lemma task_error_is_generic_witness :
  checkTask_end runtime0 new_SRAAPI (VStr "t1") fn_done fn_progress VNull
    (ok (task_body "error")) = ([ECallback [VStr "Task error"]], inr tt) /\
  terminal (observe VNull (ok (task_body "error"))) = true.
Proof.
  exact (task_error_is_generic runtime0 new_SRAAPI (VStr "t1") fn_done
           fn_progress VNull (ok (task_body "error")) (VStr "t1")
           eq_refl eq_refl eq_refl eq_refl eq_refl).
Defined.

(** C10, as stated, fails on the body [{status: "error"}], which has no
    [_id]: the completion callback receives "Empty response". *)
Lemma error_without_id_is_empty_response :
  checkTask_end runtime0 new_SRAAPI (VStr "t1") fn_done fn_progress VNull
    (ok (VObj [("status", VStr "error")])) =
  ([ECallback [VStr "Empty response"]], inr tt) /\
  VStr "Empty response" <> VStr "Task error".
Proof. split; [reflexivity | discriminate]. Qed.

(* ================================================================== *)
(** ** Claims about the single-request operations *)
(* ================================================================== *)

Lemma fields_refused items e :
  fold_left (fun acc kv =>
               match acc with
               | inl e' => inl e'
               | inr r' => field (fst kv) (snd kv) r'
               end)
            items (inl e) = inl e.
Proof. induction items as [|kv items IH]; simpl; auto. Qed.

(** The fields are all set, in order, unless a value is [undefined] or
    [null]; then none is, and the refusal is what comes out. *)
Lemma fields_spec items r :
  fields items r =
  if existsb (fun kv => nullish (snd kv)) items then
    inl (Error ".field(name, val) val can not be empty")
  else
    inr {| r_method := r_method r; r_url := r_url r; r_data := r_data r;
           r_attach := r_attach r; r_fields := (r_fields r ++ items)%list;
           r_qs := r_qs r |}.
Proof.
  unfold fields. revert r.
  induction items as [|[k v] items IH]; intros r; simpl.
  - rewrite app_nil_r. destruct r; reflexivity.
  - destruct v; simpl; try apply fields_refused;
      rewrite IH; simpl; rewrite <- app_assoc; reflexivity.
Qed.

Lemma attach_spec name file r :
  (nullish file = true -> exists msg, attach name file r = inl (TypeError msg)) /\
  (nullish file = false ->
   attach name file r =
   inr {| r_method := r_method r; r_url := r_url r; r_data := r_data r;
          r_attach := (r_attach r ++ [(name, file)])%list;
          r_fields := r_fields r; r_qs := r_qs r |}).
Proof.
  split; intros H; destruct file; simpl in *; try discriminate; eauto.
Qed.

(** [upload] throws on a file that is [undefined] or [null], throws on
    a setting that is, and otherwise sends its one request. *)
Lemma upload_cases this file settings callback :
  (nullish file = true ->
   exists msg, upload this file settings callback = ([], inl (TypeError msg))) /\
  (nullish file = false ->
   upload this file settings callback =
   if existsb (fun kv => nullish (snd kv)) (forEach settings) then
     ([], inl (Error ".field(name, val) val can not be empty"))
   else
     ([ESend {| r_method := POST;
                r_url := url (this_config this) ++ "/api/libraries/import";
                r_data := None;
                r_attach := [("file", file)];
                r_fields := forEach settings;
                r_qs := [] |} (KNormalize callback)], inr this)).
Proof.
  unfold upload.
  destruct (attach_spec "file" file
              (agent_post (url (this_config this) ++ "/api/libraries/import")))
    as [Hthrow Hok].
  split; intros Hn.
  - destruct (Hthrow Hn) as [msg ->]. exists msg. reflexivity.
  - rewrite (Hok Hn), bind_lift_inr, fields_spec.
    destruct (existsb (fun kv => nullish (snd kv)) (forEach settings));
      reflexivity.
Qed.

(** An [upload] that returns has sent its request; one that throws has
    sent nothing. *)
Lemma upload_sends_iff_returns this file settings callback :
  (forall this', outcome (upload this file settings callback) = inr this' ->
     this' = this /\
     sends (effects (upload this file settings callback)) = [KNormalize callback]) /\
  (forall e, outcome (upload this file settings callback) = inl e ->
     effects (upload this file settings callback) = []).
Proof.
  destruct (upload_cases this file settings callback) as [Hthrow Hok].
  destruct (nullish file) eqn:Hn.
  - destruct (Hthrow eq_refl) as [msg ->]. split; [discriminate | reflexivity].
  - rewrite (Hok eq_refl).
    destruct (existsb (fun kv => nullish (snd kv)) (forEach settings)).
    + split; [discriminate | reflexivity].
    + split; [intros this' [= <-]; split; reflexivity | discriminate].
Qed.

(** C8: [taskQueue] posts to the path made of the library ID and the
    task alias a body [{settings: settings}], for every settings object,
    and the body [{settings: {}}] when no settings are passed; the
    response goes to [_handleResponse] with the caller's callback, and
    the call returns the client itself. *)
Theorem taskQueue_posts_settings rt this library task callback :
  (forall settings,
     taskQueue rt this (VStr library) (VStr task) (VObj settings) callback =
     ([ESend {| r_method := POST;
                r_url := url (this_config this) ++ "/api/tasks/library/"
                         ++ library ++ "/" ++ task;
                r_data := Some (VObj [("settings", VObj settings)]);
                r_attach := []; r_fields := []; r_qs := [] |}
         (KNormalize callback)], inr this)) /\
  taskQueue rt this (VStr library) (VStr task) VUndef callback =
  ([ESend {| r_method := POST;
             r_url := url (this_config this) ++ "/api/tasks/library/"
                      ++ library ++ "/" ++ task;
             r_data := Some (VObj [("settings", VObj [])]);
             r_attach := []; r_fields := []; r_qs := [] |}
      (KNormalize callback)], inr this).
Proof. split; [intros settings|]; reflexivity. Qed.

(** C6 (amended: for the operations whose response goes through
    [_handleResponse], given a callback, and for responses that
    superagent hands over with a falsy [err]).  [login] and [taskQueue],
    and [upload] where it returns, hand their response to
    [_handleResponse]; it invokes the callback exactly once, with the
    report of exactly one of transport error, server error and success;
    a response with a status code other than 200 and a falsy [err] (a
    202, say) is a server error that carries the code; a truthy [err] is
    passed on as it is, whatever the response; and a success value is
    passed only for a 200 with a falsy [err]. *)
Theorem handleResponse_normalizes rt this callback err res :
  isFunction callback = true ->
  (forall username password,
     sends (effects (login this username password callback))
     = [KNormalize callback]) /\
  (forall file settings this',
     outcome (upload this file settings callback) = inr this' ->
     sends (effects (upload this file settings callback))
     = [KNormalize callback]) /\
  (forall library task settings,
     sends (effects (taskQueue rt this library task settings callback))
     = [KNormalize callback]) /\
  apply_closure rt this (KNormalize callback) err res =
    ([ECallback (report (normalize err res))], inr tt) /\
  (truthy err = false -> statusCode res <> 200 ->
   normalize err res = ServerError (statusCode res) /\
   report (normalize err res)
   = [VStr ("Status code: " ++ string_of_Z (statusCode res))]) /\
  (is_success (normalize err res) = true <->
   truthy err = false /\ statusCode res = 200).
Proof.
  intros Hf.
  split; [reflexivity|].
  split; [intros file settings this' Hret;
          exact (proj2 (proj1 (upload_sends_iff_returns this file settings
                                 callback) this' Hret))|].
  split; [reflexivity|].
  split; [simpl; now apply handleResponse_function|].
  split.
  - intros He Hc. apply Z.eqb_neq in Hc.
    unfold normalize. rewrite He, Hc. split; reflexivity.
  - unfold normalize. split.
    + intros Hs. destruct (truthy err); [discriminate|].
      destruct (statusCode res =? 200) eqn:E; [|discriminate].
      split; [reflexivity | now apply Z.eqb_eq].
    + intros [He Hc]. rewrite He, Hc. reflexivity.
Qed.

Lemma handleResponse_normalizes_witness :
  apply_closure runtime0 new_SRAAPI (KNormalize fn_done) VNull
    (accepted (VObj [])) =
  ([ECallback (report (normalize VNull (accepted (VObj []))))], inr tt) /\
  normalize VNull (accepted (VObj [])) = ServerError 202 /\
  report (normalize VNull (accepted (VObj []))) = [VStr "Status code: 202"].
Proof.
  destruct (handleResponse_normalizes runtime0 new_SRAAPI fn_done VNull
              (accepted (VObj [])) eq_refl)
    as (_ & _ & _ & Hrun & Hserver & _).
  split; [exact Hrun|].
  apply Hserver; [reflexivity | discriminate].
Defined.

(** C6, as stated, fails for [taskWait]: a poll answered 202 with a
    pending task is no server error to the caller, the completion
    callback is not invoked and the next tick is scheduled.  And where
    superagent passes an error along with a response that is not a 200,
    the callback receives that error, not the status code. *)
Lemma taskWait_ignores_status_code :
  (apply_closure runtime0 new_SRAAPI (KPoll (VStr "t1") fn_done fn_progress)
     VNull (accepted (task_body "pending")) =
   ([ESetTimeout (KCheckTask (VStr "t1") fn_done fn_progress) 1000], inr tt) /\
   statusCode (accepted (task_body "pending")) <> 200) /\
  _handleResponse (VStr "Not Found")
    {| statusCode := 404; status := 404; body := VObj [] |} fn_done =
  ([ECallback [VStr "Not Found"]], inr tt).
Proof. split; [split; [reflexivity | discriminate] | reflexivity]. Qed.

(* ================================================================== *)
(** ** [_.merge] and the query of [getLibraryReferences] *)
(* ================================================================== *)

Lemma mergeValue_not_object dst v : is_plain_object v = false -> mergeValue dst v = v.
Proof. destruct v; simpl; intros; congruence. Qed.

Lemma assignMergeValue_lookup_other o k k' v :
  k <> k' -> lookup k (assignMergeValue o k' v) = lookup k o.
Proof.
  intros Hne. unfold assignMergeValue.
  destruct v; try now apply lookup_assign_other.
  destruct (has k' o); [reflexivity | now apply lookup_assign_other].
Qed.

Lemma assignMergeValue_lookup_same o k v :
  v <> VUndef -> lookup k (assignMergeValue o k v) = Some v.
Proof.
  intros Hv. unfold assignMergeValue.
  destruct v; try apply lookup_assign_same. contradiction.
Qed.

Lemma assignMergeValue_NoDup o k v :
  NoDup (map fst o) -> NoDup (map fst (assignMergeValue o k v)).
Proof.
  intros H. unfold assignMergeValue.
  destruct v; try now apply assign_NoDup.
  destruct (has k o); [assumption | now apply assign_NoDup].
Qed.

Lemma baseMerge_NoDup fs o :
  NoDup (map fst o) -> NoDup (map fst (baseMerge o fs)).
Proof.
  revert o. induction fs as [|[k v] fs IH]; intros o H; simpl; auto.
  apply IH. now apply assignMergeValue_NoDup.
Qed.

Lemma baseMerge_lookup_notin fs o k :
  ~ In k (map fst fs) -> lookup k (baseMerge o fs) = lookup k o.
Proof.
  revert o. induction fs as [|[k' v'] fs IH]; intros o Hn; simpl; auto.
  simpl in Hn. rewrite IH by tauto.
  apply assignMergeValue_lookup_other. intros ->. tauto.
Qed.

(** A source property that is neither [undefined] nor an object ends up
    in the destination as it is, whatever the destination held. *)
Lemma baseMerge_lookup_in fs o k v :
  NoDup (map fst fs) -> In (k, v) fs ->
  is_plain_object v = false -> v <> VUndef ->
  lookup k (baseMerge o fs) = Some v.
Proof.
  revert o. induction fs as [|[k' v'] fs IH]; intros o Hnd Hin Hp Hv; simpl.
  - destruct Hin.
  - simpl in Hnd. inversion Hnd as [|x l Hnotin Hnd']; subst.
    destruct Hin as [[= -> ->] | Hin].
    + rewrite baseMerge_lookup_notin by assumption.
      rewrite mergeValue_not_object by assumption.
      now apply assignMergeValue_lookup_same.
    + now apply IH.
Qed.

(** [.query(obj)] keeps the properties of an object as they are. *)
Lemma query_lookup o acc k :
  NoDup (map fst o) ->
  lookup k (fold_left (fun q kv => assign (fst kv) (snd kv) q) o acc) =
  match lookup k o with
  | Some v => Some v
  | None => lookup k acc
  end.
Proof.
  revert acc. induction o as [|[k' v'] o IH]; intros acc Hnd; simpl; auto.
  inversion Hnd as [|x l Hnotin Hnd']; subst.
  rewrite IH by assumption.
  destruct (k =? k')%string eqn:E.
  - apply String.eqb_eq in E. subst k'.
    apply lookup_None_notin in Hnotin. rewrite Hnotin.
    apply lookup_assign_same.
  - apply String.eqb_neq in E.
    destruct (lookup k o); [reflexivity|].
    now apply lookup_assign_other.
Qed.

(** The order of the merge, where a request is sent at all (were some
    script to define a global [config], and [library] an object with an
    [_id]): the extra query is merged last, so every property of it
    whose value is neither undefined nor an object is in the query with
    that value, a [library] property included; and where the extra
    query has no [library], the query's [library] is the [_id]. *)
Lemma getLibraryReferences_query rt global this library query_ callback
    cfg base id :
  global "config" = Some cfg ->
  get cfg "url" = inr base ->
  get library "_id" = inr id ->
  NoDup (map fst (entries query_)) ->
  exists r,
    getLibraryReferences rt global this library query_ callback =
      ([ESend r (KNormalize callback)], inr this) /\
    r_method r = GET /\
    r_url r = ToString rt base ++ "/api/references" /\
    r_data r = None /\
    (forall k v,
       truthy query_ = true -> In (k, v) (entries query_) ->
       is_plain_object v = false -> v <> VUndef ->
       lookup k (r_qs r) = Some v) /\
    (is_plain_object id = false -> id <> VUndef ->
     lookup "library" (entries query_) = None ->
     lookup "library" (r_qs r) = Some id).
Proof.
  intros Hg Hu Hid Hnd.
  eexists. split.
  { unfold getLibraryReferences, resolve. rewrite Hg, bind_lift_inr.
    rewrite Hu, bind_lift_inr, Hid, bind_lift_inr. reflexivity. }
  simpl r_method. simpl r_url. simpl r_data. simpl r_qs.
  repeat split.
  - intros k v Hq Hin Hp Hv.
    rewrite Hq.
    assert (Hnd' : NoDup (map fst (baseMerge
              (assignMergeValue [] "library" (mergeValue (objValue "library" []) id))
              (entries query_)))).
    { apply baseMerge_NoDup, assignMergeValue_NoDup. constructor. }
    rewrite (query_lookup _ [] k Hnd').
    now rewrite (baseMerge_lookup_in _ _ k v Hnd Hin Hp Hv).
  - intros Hp _ Hnone.
    assert (Hone : assignMergeValue [] "library"
                     (mergeValue (objValue "library" []) id) = [("library", id)]).
    { rewrite mergeValue_not_object by assumption. destruct id; reflexivity. }
    rewrite Hone.
    destruct (truthy query_).
    + rewrite query_lookup
        by (apply baseMerge_NoDup; simpl; constructor; [intros []|constructor]).
      rewrite baseMerge_lookup_notin by now apply lookup_None_notin.
      reflexivity.
    + reflexivity.
Qed.

Lemma getLibraryReferences_query_witness :
  exists r,
    getLibraryReferences runtime0 with_config new_SRAAPI
      (VObj [("_id", VStr "L1")]) (VObj [("sort", VStr "title")]) fn_done =
      ([ESend r (KNormalize fn_done)], inr new_SRAAPI) /\
    r_method r = GET /\
    r_url r = "http://sra/api/references" /\
    r_qs r = [("library", VStr "L1"); ("sort", VStr "title")].
Proof.
  destruct (getLibraryReferences_query runtime0 with_config new_SRAAPI
              (VObj [("_id", VStr "L1")]) (VObj [("sort", VStr "title")])
              fn_done (VObj [("url", VStr "http://sra")]) (VStr "http://sra")
              (VStr "L1") eq_refl eq_refl eq_refl
              (NoDup_cons "sort" (fun H : In "sort" [] => H) (NoDup_nil string)))
    as (r & Hsent & Hm & Hu & _).
  exists r. split; [exact Hsent|]. split; [exact Hm|]. split; [exact Hu|].
  vm_compute in Hsent. injection Hsent as <-. reflexivity.
Defined.

(** C3: called as the claim has it, with the library ID and
    [{sort: "title"}], in the module as [require] loads it,
    [getLibraryReferences] sends no GET: it reads [config.url], and no
    [config] is declared (the other operations read
    [this.config.url]), so the call throws a [ReferenceError] before a
    request is built; nothing is in flight and the callback will not be
    invoked. *)
Theorem getLibraryReferences_example_throws :
  getLibraryReferences runtime0 no_globals new_SRAAPI (VStr "L1")
    (VObj [("sort", VStr "title")]) fn_done =
  ([], inl (ReferenceError "config is not defined")) /\
  absorb idle
    (getLibraryReferences runtime0 no_globals new_SRAAPI (VStr "L1")
       (VObj [("sort", VStr "title")]) fn_done) =
  {| log := []; inflight := []; timers := [];
     uncaught := [ReferenceError "config is not defined"] |}.
Proof. split; reflexivity. Qed.

(** The same call throws where no [config] is declared, and with a
    global [config] and a library object a [library] key of the extra
    query wins over the library's [_id]. *)
Lemma getLibraryReferences_extra_query_wins :
  getLibraryReferences runtime0 no_globals new_SRAAPI (VStr "L1")
    (VObj [("sort", VStr "title")]) fn_done =
  ([], inl (ReferenceError "config is not defined")) /\
  getLibraryReferences runtime0 with_config new_SRAAPI
    (VObj [("_id", VStr "L1")])
    (VObj [("library", VStr "other"); ("sort", VStr "title")]) fn_done =
  ([ESend {| r_method := GET; r_url := "http://sra/api/references";
             r_data := None; r_attach := []; r_fields := [];
             r_qs := [("library", VStr "other"); ("sort", VStr "title")] |}
      (KNormalize fn_done)], inr new_SRAAPI).
Proof. split; reflexivity. Qed.

(* ================================================================== *)
(** ** More about one poll response *)
(* ================================================================== *)

Lemma callbacks_app l1 l2 : callbacks (l1 ++ l2) = (callbacks l1 ++ callbacks l2)%list.
Proof. induction l1 as [|[] l1 IH]; simpl; auto. now rewrite IH. Qed.

Lemma sent_app l1 l2 : sent (l1 ++ l2) = (sent l1 ++ sent l2)%list.
Proof. induction l1 as [|[] l1 IH]; simpl; auto. now rewrite IH. Qed.

Lemma delays_app l1 l2 : delays (l1 ++ l2) = (delays l1 ++ delays l2)%list.
Proof. induction l1 as [|[] l1 IH]; simpl; auto. now rewrite IH. Qed.

Lemma progressions_app l1 l2 :
  progressions (l1 ++ l2) = (progressions l1 + progressions l2)%nat.
Proof. induction l1 as [|[] l1 IH]; simpl; auto. Qed.

Lemma responses_respond ins n err res :
  responses (ins ++ [Respond n err res]) = S (responses ins).
Proof. unfold responses. rewrite filter_app, length_app. simpl. lia. Qed.

Lemma responses_fire ins n : responses (ins ++ [Fire n]) = responses ins.
Proof. unfold responses. rewrite filter_app, length_app. simpl. lia. Qed.

Lemma handleResponse_returns err res callback :
  outcome (_handleResponse err res callback) = inr tt.
Proof.
  unfold _handleResponse, call.
  destruct (isFunction callback); simpl; [|reflexivity].
  destruct (truthy err); [reflexivity|].
  destruct (statusCode res =? 200); reflexivity.
Qed.

Section PollMore.

Variable rt : runtime.
Variable self : SRAAPI.
Variables task callback callbackProgress : value.

Let handler := checkTask_end rt self task callback callbackProgress.

(** An exception leaves [checkTask]'s callback before it has done
    anything. *)
Lemma checkTask_end_throws_nothing err res e :
  outcome (handler err res) = inl e -> effects (handler err res) = [].
Proof.
  pose proof (checkTask_end_by_observation rt self task callback
                callbackProgress err res) as H.
  fold handler in H.
  assert (Hcall : forall args,
            outcome (call ECallback "callback" callback args) = inl e ->
            effects (call ECallback "callback" callback args) = []).
  { intros args. unfold call. destruct (isFunction callback); simpl;
      [discriminate | reflexivity]. }
  destruct (observe err res).
  - rewrite H. apply Hcall.
  - destruct H as [msg ->]. reflexivity.
  - rewrite H. apply Hcall.
  - destruct H as [_ ->]. rewrite handleResponse_returns. discriminate.
  - rewrite H. discriminate.
  - rewrite H. apply Hcall.
  - rewrite H. unfold processing_case, call, setTimeout.
    destruct (isFunction callbackProgress); simpl; [|discriminate].
    destruct (get (body res) "progress") as [e1 | progress]; simpl; auto.
    destruct (get progress "current") as [e1 | current]; simpl; auto.
    destruct (get progress "max") as [e1 | max]; simpl; auto.
    discriminate.
  - rewrite H. apply Hcall.
Qed.

(** With a completion callback, a readable response makes no read
    throw. *)
Lemma checkTask_end_readable err res :
  isFunction callback = true ->
  readable callbackProgress err res = true ->
  outcome (handler err res) = inr tt.
Proof.
  intros Hf Hr.
  pose proof (checkTask_end_by_observation rt self task callback
                callbackProgress err res) as H.
  fold handler in H.
  assert (Hcall : forall args,
            outcome (call ECallback "callback" callback args) = inr tt).
  { intros args. unfold call. rewrite Hf. reflexivity. }
  unfold readable in Hr.
  destruct (observe err res) eqn:Ho.
  - rewrite H. apply Hcall.
  - exfalso. unfold observe in Ho.
    destruct (truthy err); [discriminate|]. simpl in Hr.
    destruct (body res); simpl in Hr; try discriminate; simpl in Ho;
      repeat match type of Ho with
             | context [if ?c then _ else _] => destruct c
             end; discriminate.
  - rewrite H. apply Hcall.
  - destruct H as [_ ->]. apply handleResponse_returns.
  - rewrite H. reflexivity.
  - rewrite H. apply Hcall.
  - rewrite H. unfold processing_case, call, setTimeout.
    destruct (isFunction callbackProgress); simpl; [|reflexivity].
    assert (He : truthy err = false).
    { unfold observe in Ho. destruct (truthy err); [discriminate | reflexivity]. }
    rewrite He in Hr. simpl in Hr.
    apply andb_prop in Hr. destruct Hr as [_ Hr].
    destruct (get (body res) "progress") as [e1 | progress]; [discriminate|].
    simpl.
    destruct progress; simpl in Hr; try discriminate; reflexivity.
  - rewrite H. apply Hcall.
Qed.

(** What [checkTask]'s callback adds besides requests and completion
    calls: no request, timers of the one delay, at most one progress
    call, and that only for a task in progress and a progress callback
    that is a function. *)
Lemma checkTask_end_extras err res :
  let es := effects (handler err res) in
  sent es = [] /\
  delays es = repeat (pollFreq (this_config self)) (List.length (timeouts es)) /\
  (progressions es <= 1)%nat /\
  (isFunction callbackProgress = false -> progressions es = 0%nat) /\
  (observe err res <> Processing -> progressions es = 0%nat).
Proof.
  pose proof (checkTask_end_by_observation rt self task callback
                callbackProgress err res) as H.
  fold handler in H.
  assert (Hcall : forall args,
            let es := effects (call ECallback "callback" callback args) in
            sent es = [] /\
            delays es = repeat (pollFreq (this_config self))
                          (List.length (timeouts es)) /\
            (progressions es <= 1)%nat /\
            (isFunction callbackProgress = false -> progressions es = 0%nat) /\
            (observe err res <> Processing -> progressions es = 0%nat)).
  { intros args. unfold call. destruct (isFunction callback); simpl;
      repeat split; auto. }
  destruct (observe err res) eqn:Ho; cbv zeta.
  - rewrite H. apply Hcall.
  - destruct H as [msg ->]. simpl. repeat split; auto.
  - rewrite H. apply Hcall.
  - destruct H as [_ ->]. unfold _handleResponse, call.
    destruct (isFunction callback); simpl; [|repeat split; auto].
    destruct (truthy err); simpl; [repeat split; auto|].
    destruct (statusCode res =? 200); simpl; repeat split; auto.
  - rewrite H. simpl. repeat split; auto.
  - rewrite H. apply Hcall.
  - rewrite H. unfold processing_case, call, setTimeout.
    destruct (isFunction callbackProgress); simpl.
    + destruct (get (body res) "progress") as [e1 | progress]; simpl;
        [repeat split; auto; discriminate|].
      destruct (get progress "current") as [e1 | current]; simpl;
        [repeat split; auto; discriminate|].
      destruct (get progress "max") as [e1 | max]; simpl;
        [repeat split; auto; discriminate|].
      repeat split; auto; try discriminate. congruence.
    + repeat split; auto.
  - rewrite H. apply Hcall.
Qed.

End PollMore.

(* ================================================================== *)
(** ** Induction over the runs of a [taskWait] *)
(* ================================================================== *)

Section PollRuns.

Variable rt : runtime.
Variable self : SRAAPI.
Variables task callback callbackProgress : value.

Let handler := checkTask_end rt self task callback callbackProgress.
Let start := poll_start rt self task callback callbackProgress.
Let poll_request :=
  agent_get (url (this_config self) ++ "/api/tasks/" ++ ToString rt task).

(** Every run of a [taskWait] is a run of responses to the request in
    flight and of expiries of the one timer, in turn. *)
Lemma poll_run_ind (P : list input -> world -> Prop) :
  P [] start ->
  (forall ins w err res w',
     run rt self start ins = Some w -> P ins w ->
     existsb terminal_input ins = false -> completions (log w) = 0%nat ->
     inflight w = [KPoll task callback callbackProgress] -> timers w = [] ->
     log w' = (log w ++ effects (handler err res))%list ->
     inflight w' = [] ->
     timers w' = timeouts (effects (handler err res)) ->
     uncaught w' = (uncaught w ++
                    match outcome (handler err res) with
                    | inl e => [e]
                    | inr _ => []
                    end)%list ->
     P (ins ++ [Respond 0 err res])%list w') ->
  (forall ins w w',
     run rt self start ins = Some w -> P ins w ->
     existsb terminal_input ins = false -> completions (log w) = 0%nat ->
     inflight w = [] -> timers w = [KCheckTask task callback callbackProgress] ->
     log w' = (log w ++ [ESend poll_request (KPoll task callback callbackProgress)])%list ->
     inflight w' = [KPoll task callback callbackProgress] ->
     timers w' = [] ->
     uncaught w' = uncaught w ->
     P (ins ++ [Fire 0])%list w') ->
  forall ins w, run rt self start ins = Some w -> P ins w.
Proof.
  intros Hstart Hrespond Hfire.
  induction ins as [|i ins IH] using rev_ind; intros w.
  - simpl. intros [= <-]. exact Hstart.
  - rewrite run_app.
    destruct (run rt self start ins) as [w0|] eqn:Hr; [|discriminate].
    simpl. destruct (step rt self w0 i) as [w1|] eqn:Hs; [|discriminate].
    intros [= <-].
    pose proof (poll_inv_run rt self task callback callbackProgress ins w0 Hr)
      as [_ Hshape].
    destruct Hshape as [(Hin & Htm & Hnt & Hc) | [(Hin & Htm & Hnt & Hc) | (Hin & Htm & _)]].
    + destruct i as [n err res | n]; simpl in Hs;
        [|rewrite Htm in Hs; destruct n; discriminate].
      rewrite Hin in Hs.
      destruct (nth_error [KPoll task callback callbackProgress] n) as [k|] eqn:Hn;
        [|discriminate].
      apply nth_error_singleton in Hn. destruct Hn as [-> ->].
      injection Hs as <-.
      destruct (checkTask_end_counts rt self task callback callbackProgress
                  err res) as [Hsends _].
      apply (Hrespond ins w0 err res); auto; simpl.
      rewrite Htm. reflexivity.
    + destruct i as [n err res | n]; simpl in Hs;
        [rewrite Hin in Hs; destruct n; discriminate|].
      rewrite Htm in Hs.
      destruct (nth_error [KCheckTask task callback callbackProgress] n) as [f|] eqn:Hn;
        [|discriminate].
      apply nth_error_singleton in Hn. destruct Hn as [-> ->].
      injection Hs as <-.
      apply (Hfire ins w0); auto; simpl.
      * rewrite Hin. reflexivity.
      * now rewrite app_nil_r.
    + destruct i as [n err res | n]; simpl in Hs.
      * rewrite Hin in Hs. destruct n; discriminate.
      * rewrite Htm in Hs. destruct n; discriminate.
Qed.

End PollRuns.

(* ================================================================== *)
(** ** More about the poll loop *)
(* ================================================================== *)

Lemma checkTask_end_completions_le rt self task callback callbackProgress err res :
  (completions (effects (checkTask_end rt self task callback callbackProgress
                           err res)) <= 1)%nat.
Proof.
  pose proof (checkTask_end_by_observation rt self task callback
                callbackProgress err res) as H.
  assert (Hcall : forall args,
            (completions (effects (call ECallback "callback" callback args)) <= 1)%nat).
  { intros args. unfold call. destruct (isFunction callback); simpl; lia. }
  destruct (observe err res) eqn:Ho.
  - rewrite H. apply Hcall.
  - destruct H as [msg ->]. simpl. lia.
  - rewrite H. apply Hcall.
  - destruct H as [_ ->]. unfold _handleResponse, call.
    destruct (isFunction callback); simpl; [|lia].
    destruct (truthy err); simpl; [lia|].
    destruct (statusCode res =? 200); simpl; lia.
  - rewrite H. simpl. lia.
  - rewrite H. apply Hcall.
  - rewrite H.
    destruct (processing_counts rt self task callback callbackProgress res)
      as (_ & -> & _). lia.
  - rewrite H. apply Hcall.
Qed.

(** X1.  Fixed-interval polling: all the requests of a [taskWait] are the
    same GET of [/api/tasks/<task>], with no body, no query and no
    attachment, one for the call and one per expired timer; and every
    timer is armed with the delay [config.pollFreq]. *)
Theorem taskWait_same_request_and_delay rt this task callback callbackProgress
    ins w :
  run rt this (poll_start rt this task callback callbackProgress) ins = Some w ->
  sent (log w) =
    repeat {| r_method := GET;
              r_url := url (this_config this) ++ "/api/tasks/" ++ ToString rt task;
              r_data := None; r_attach := []; r_fields := []; r_qs := [] |}
           (S (fired ins)) /\
  Forall (fun d => d = pollFreq (this_config this)) (delays (log w)).
Proof.
  revert ins w.
  apply (poll_run_ind rt this task callback callbackProgress
           (fun ins w =>
              sent (log w) =
                repeat {| r_method := GET;
                          r_url := url (this_config this) ++ "/api/tasks/"
                                   ++ ToString rt task;
                          r_data := None; r_attach := []; r_fields := [];
                          r_qs := [] |} (S (fired ins)) /\
              Forall (fun d => d = pollFreq (this_config this)) (delays (log w)))).
  - split; [reflexivity | constructor].
  - intros ins w err res w' _ [Hs Hd] _ _ _ _ Hlog _ _ _.
    destruct (checkTask_end_extras rt this task callback callbackProgress
                err res) as (Hsent & Hdel & _).
    rewrite Hlog, sent_app, delays_app, Hsent, app_nil_r, fired_respond.
    split; [exact Hs|].
    apply Forall_app. split; [exact Hd|].
    rewrite Hdel. apply Forall_forall. intros d Hin.
    now apply repeat_spec in Hin.
  - intros ins w w' _ [Hs Hd] _ _ _ _ Hlog _ _ _.
    rewrite Hlog, sent_app, delays_app, fired_fire, Hs. simpl sent. simpl delays.
    split.
    + change (repeat ?x (S (S ?n))) with (x :: repeat x (S n)).
      now rewrite repeat_cons.
    + now rewrite app_nil_r.
Qed.

Lemma taskWait_same_request_and_delay_witness :
  exists w,
    run runtime0 new_SRAAPI
      (poll_start runtime0 new_SRAAPI (VStr "t1") fn_done fn_progress)
      pending_then_completed = Some w /\
    sent (log w) =
      repeat {| r_method := GET; r_url := "http://glitch/api/tasks/t1";
                r_data := None; r_attach := []; r_fields := []; r_qs := [] |} 2 /\
    Forall (fun d => d = 1000) (delays (log w)).
Proof.
  eexists. split; [reflexivity|].
  exact (taskWait_same_request_and_delay runtime0 new_SRAAPI (VStr "t1") fn_done
           fn_progress pending_then_completed _ eq_refl).
Defined.

(** X2.  An exception that escapes a poll ends the wait in silence: there is
    one such exception at most; when there is one, no request is in
    flight and no timer armed, so nothing will run again, and the
    completion callback has not been and will not be invoked. *)
Theorem taskWait_exception_ends_silently rt this task callback callbackProgress
    ins w :
  run rt this (poll_start rt this task callback callbackProgress) ins = Some w ->
  uncaught w <> [] ->
  (exists e, uncaught w = [e]) /\
  (forall i, step rt this w i = None) /\
  completions (log w) = 0%nat.
Proof.
  intros Hrun Hne.
  assert (H : uncaught w = [] \/
              ((exists e, uncaught w = [e]) /\ inflight w = [] /\ timers w = [] /\
               completions (log w) = 0%nat)).
  { revert ins w Hrun Hne.
    apply (poll_run_ind rt this task callback callbackProgress
             (fun ins w =>
                uncaught w <> [] ->
                uncaught w = [] \/
                ((exists e, uncaught w = [e]) /\ inflight w = [] /\
                 timers w = [] /\ completions (log w) = 0%nat))).
    - intros _. left. reflexivity.
    - intros ins w err res w' _ IH _ Hc Hin _ Hlog Hin' Htm' Hun Hne.
      assert (Hw : uncaught w = []).
      { destruct (uncaught w) eqn:E; [reflexivity|].
        destruct IH as [IH | (_ & IH & _)]; [discriminate| |];
          congruence. }
      rewrite Hw in Hun. simpl in Hun.
      destruct (outcome (checkTask_end rt this task callback callbackProgress
                           err res)) as [e|u] eqn:Ho.
      + right. split; [exists e; exact Hun|].
        apply checkTask_end_throws_nothing in Ho.
        rewrite Ho in Hlog, Htm'. rewrite app_nil_r in Hlog.
        repeat split; auto. now rewrite Hlog.
      + left. exact Hun.
    - intros ins w w' _ IH _ _ Hin Htm _ _ _ Hun Hne.
      rewrite Hun in *.
      destruct IH as [IH | (_ & _ & IH & _)]; auto; congruence. }
  destruct H as [H | (He & Hin & Htm & Hc)]; [contradiction|].
  repeat split; auto.
  intros [n err res | n]; simpl.
  - rewrite Hin. destruct n; reflexivity.
  - rewrite Htm. destruct n; reflexivity.
Qed.

Lemma taskWait_exception_ends_silently_witness :
  exists w,
    run runtime0 new_SRAAPI
      (poll_start runtime0 new_SRAAPI (VStr "t1") fn_done fn_progress)
      [Respond 0 VNull (ok (task_body "processing"))] = Some w /\
    (exists e, uncaught w = [e]) /\
    (forall i, step runtime0 new_SRAAPI w i = None) /\
    completions (log w) = 0%nat.
Proof.
  eexists. split; [reflexivity|].
  apply (taskWait_exception_ends_silently runtime0 new_SRAAPI (VStr "t1") fn_done
           fn_progress [Respond 0 VNull (ok (task_body "processing"))] _ eq_refl).
  discriminate.
Defined.

(** X3.  With a completion callback, a wait whose responses are all readable
    throws nothing. *)
Theorem taskWait_readable_never_throws rt this task callback callbackProgress
    ins w :
  isFunction callback = true ->
  forallb (readable_input callbackProgress) ins = true ->
  run rt this (poll_start rt this task callback callbackProgress) ins = Some w ->
  uncaught w = [].
Proof.
  intros Hf Hall Hrun. revert ins w Hrun Hall.
  apply (poll_run_ind rt this task callback callbackProgress
           (fun ins w =>
              forallb (readable_input callbackProgress) ins = true ->
              uncaught w = [])).
  - reflexivity.
  - intros ins w err res w' _ IH _ _ _ _ _ _ _ Hun Hall.
    rewrite forallb_app in Hall. apply andb_prop in Hall.
    destruct Hall as [Hall Hr]. simpl in Hr. rewrite andb_true_r in Hr.
    rewrite Hun, (IH Hall).
    now rewrite (checkTask_end_readable rt this task callback callbackProgress
                   err res Hf Hr).
  - intros ins w w' _ IH _ _ _ _ _ _ _ Hun Hall.
    rewrite forallb_app in Hall. apply andb_prop in Hall.
    destruct Hall as [Hall _]. rewrite Hun. exact (IH Hall).
Qed.

Lemma taskWait_readable_never_throws_witness :
  exists w,
    run runtime0 new_SRAAPI
      (poll_start runtime0 new_SRAAPI (VStr "t1") fn_done fn_progress)
      pending_then_completed = Some w /\
    uncaught w = [].
Proof.
  eexists. split; [reflexivity|].
  exact (taskWait_readable_never_throws runtime0 new_SRAAPI (VStr "t1") fn_done
           fn_progress pending_then_completed _ eq_refl eq_refl eq_refl).
Defined.

(** X4.  The calls a wait makes: none of the completion callback before a
    terminal response, and never more than one; at most one of the
    progress callback per response, and none where the third argument
    of [taskWait] is not a function. *)
Theorem taskWait_call_counts rt this task callback callbackProgress ins w :
  run rt this (poll_start rt this task callback callbackProgress) ins = Some w ->
  (existsb terminal_input ins = false -> completions (log w) = 0%nat) /\
  (completions (log w) <= 1)%nat /\
  (progressions (log w) <= responses ins)%nat /\
  (isFunction callbackProgress = false -> progressions (log w) = 0%nat).
Proof.
  revert ins w.
  apply (poll_run_ind rt this task callback callbackProgress
           (fun ins w =>
              (existsb terminal_input ins = false -> completions (log w) = 0%nat) /\
              (completions (log w) <= 1)%nat /\
              (progressions (log w) <= responses ins)%nat /\
              (isFunction callbackProgress = false ->
               progressions (log w) = 0%nat))).
  - repeat split; auto.
  - intros ins w err res w' _ (_ & _ & Hp & Hnp) _ Hc _ _ Hlog _ _ _.
    destruct (checkTask_end_counts rt this task callback callbackProgress
                err res) as [_ Hcount].
    destruct (checkTask_end_extras rt this task callback callbackProgress
                err res) as (_ & _ & Hp1 & Hp0 & _).
    pose proof (checkTask_end_completions_le rt this task callback
                  callbackProgress err res) as Hle.
    rewrite Hlog, completions_app, progressions_app, responses_respond, Hc.
    repeat split.
    + rewrite existsb_app. simpl. rewrite orb_false_r.
      intros Hnt. apply orb_false_elim in Hnt. destruct Hnt as [_ Hnt].
      rewrite Hnt in Hcount. destruct Hcount as [-> _]. reflexivity.
    + simpl. exact Hle.
    + lia.
    + intros Hf. rewrite (Hnp Hf), (Hp0 Hf). reflexivity.
  - intros ins w w' _ (_ & _ & Hp & Hnp) Hnt Hc _ _ Hlog _ _ _.
    rewrite Hlog, completions_app, progressions_app, responses_fire, Hc.
    simpl. repeat split; auto; try lia.
    intros Hf. rewrite (Hnp Hf). reflexivity.
Qed.

Lemma taskWait_call_counts_witness :
  exists w,
    run runtime0 new_SRAAPI
      (poll_start runtime0 new_SRAAPI (VStr "t1") fn_done fn_progress)
      [Respond 0 VNull (ok (progress_body 3 4)); Fire 0] = Some w /\
    completions (log w) = 0%nat /\ (progressions (log w) <= 1)%nat.
Proof.
  eexists. split; [reflexivity|].
  destruct (taskWait_call_counts runtime0 new_SRAAPI (VStr "t1") fn_done
              fn_progress [Respond 0 VNull (ok (progress_body 3 4)); Fire 0]
              _ eq_refl) as (H0 & _ & Hp & _).
  split; [exact (H0 eq_refl) | exact Hp].
Defined.

(** X5.  A task answered pending [n] times and then completed, each answer
    a 200: the wait sends [n + 1] requests, arms [n] timers, and ends
    with one call of the completion callback, [callback(null, body)]
    with the body of the last answer; nothing is left to run and
    nothing was thrown. *)
Theorem taskWait_pending_then_completed rt this task callback callbackProgress
    rs last :
  isFunction callback = true ->
  Forall (fun r => observe (fst r) (snd r) = Pending) rs ->
  observe (fst last) (snd last) = Completed ->
  statusCode (snd last) = 200 ->
  let get_task :=
    ESend (agent_get (url (this_config this) ++ "/api/tasks/" ++ ToString rt task))
          (KPoll task callback callbackProgress) in
  let wait :=
    ESetTimeout (KCheckTask task callback callbackProgress)
                (pollFreq (this_config this)) in
  run rt this (poll_start rt this task callback callbackProgress) (polls rs last)
  = Some {| log := (get_task :: flat_map (fun _ => [wait; get_task]) rs
                    ++ [ECallback [VNull; body (snd last)]])%list;
            inflight := []; timers := []; uncaught := [] |}.
Proof.
  intros Hf Hrs Hlast Hcode get_task wait.
  assert (Hgen : forall l,
    run rt this {| log := l; inflight := [KPoll task callback callbackProgress];
                   timers := []; uncaught := [] |} (polls rs last)
    = Some {| log := (l ++ flat_map (fun _ => [wait; get_task]) rs
                      ++ [ECallback [VNull; body (snd last)]])%list;
              inflight := []; timers := []; uncaught := [] |}).
  { induction Hrs as [|r rs Hr Hrs IH]; intros l.
    - unfold polls. simpl.
      pose proof (checkTask_end_by_observation rt this task callback
                    callbackProgress (fst last) (snd last)) as H.
      rewrite Hlast in H. destruct H as [He H]. rewrite H.
      rewrite (handleResponse_function _ _ _ Hf).
      unfold normalize. rewrite He, Hcode. reflexivity.
    - unfold polls. simpl.
      pose proof (checkTask_end_by_observation rt this task callback
                    callbackProgress (fst r) (snd r)) as H.
      rewrite Hr in H. rewrite H. unfold absorb. simpl.
      unfold polls in IH. rewrite IH. rewrite <- !app_assoc. reflexivity. }
  exact (Hgen [get_task]).
Qed.

Lemma taskWait_pending_then_completed_witness :
  run runtime0 new_SRAAPI
    (poll_start runtime0 new_SRAAPI (VStr "t1") fn_done fn_progress)
    (polls [(VNull, ok (task_body "pending")); (VNull, ok (task_body "pending"))]
           (VNull, ok (task_body "completed")))
  = Some {| log :=
              [ESend (agent_get "http://glitch/api/tasks/t1")
                     (KPoll (VStr "t1") fn_done fn_progress);
               ESetTimeout (KCheckTask (VStr "t1") fn_done fn_progress) 1000;
               ESend (agent_get "http://glitch/api/tasks/t1")
                     (KPoll (VStr "t1") fn_done fn_progress);
               ESetTimeout (KCheckTask (VStr "t1") fn_done fn_progress) 1000;
               ESend (agent_get "http://glitch/api/tasks/t1")
                     (KPoll (VStr "t1") fn_done fn_progress);
               ECallback [VNull; task_body "completed"]];
            inflight := []; timers := []; uncaught := [] |}.
Proof.
  apply (taskWait_pending_then_completed runtime0 new_SRAAPI (VStr "t1") fn_done
           fn_progress
           [(VNull, ok (task_body "pending")); (VNull, ok (task_body "pending"))]
           (VNull, ok (task_body "completed")));
    [reflexivity | repeat constructor | reflexivity | reflexivity].
Defined.

(* ================================================================== *)
(** ** What a callback receives *)
(* ================================================================== *)

(** X6.  The error-first contract of every response handler of the client,
    [_handleResponse] and [checkTask]'s callback alike: whenever the
    completion callback is called, it is either with one argument, a
    truthy error, or with [null] and the body of the response. *)
Theorem callbacks_are_error_first rt this k err res args :
  In args (callbacks (effects (apply_closure rt this k err res))) ->
  (error_only args = true /\ value_only args = false) \/
  (args = [VNull; body res] /\ truthy err = false).
Proof.
  assert (Hcall : forall callback e,
            truthy e = true ->
            In args (callbacks (effects (call ECallback "callback" callback [e]))) ->
            (error_only args = true /\ value_only args = false) \/
            (args = [VNull; body res] /\ truthy err = false)).
  { intros callback e He. unfold call.
    destruct (isFunction callback); simpl; [|contradiction].
    intros [<- | []]. left. split; [exact He | destruct e; reflexivity]. }
  assert (Hnorm : forall callback,
            In args (callbacks (effects (_handleResponse err res callback))) ->
            (error_only args = true /\ value_only args = false) \/
            (args = [VNull; body res] /\ truthy err = false)).
  { intros callback. unfold _handleResponse, call.
    destruct (isFunction callback); simpl; [|contradiction].
    destruct (truthy err) eqn:He; simpl.
    - intros [<- | []]. left. split; [exact He | destruct err; reflexivity].
    - destruct (statusCode res =? 200); simpl; intros [<- | []].
      + right. auto.
      + left. split; reflexivity. }
  destruct k as [callback | task callback callbackProgress]; simpl.
  - apply Hnorm.
  - pose proof (checkTask_end_by_observation rt this task callback
                  callbackProgress err res) as H.
    destruct (observe err res) eqn:Ho.
    + rewrite H. apply Hcall.
      unfold observe in Ho. destruct (truthy err); [reflexivity|].
      destruct (get (body res) "_id"); [discriminate|].
      destruct (get (body res) "status"); [discriminate|].
      repeat match type of Ho with
             | context [if ?c then _ else _] => destruct c
             end; discriminate.
    + destruct H as [msg ->]. simpl. contradiction.
    + rewrite H. now apply Hcall.
    + destruct H as [_ ->]. apply Hnorm.
    + rewrite H. simpl. contradiction.
    + rewrite H. now apply Hcall.
    + rewrite H. intros Hin. exfalso.
      unfold processing_case, call, setTimeout in Hin.
      destruct (isFunction callbackProgress); simpl in Hin; [|contradiction].
      destruct (get (body res) "progress") as [e1 | progress];
        simpl in Hin; [contradiction|].
      destruct (get progress "current") as [e1 | current];
        simpl in Hin; [contradiction|].
      destruct (get progress "max") as [e1 | max];
        simpl in Hin; contradiction.
    + rewrite H. now apply Hcall.
Qed.

Lemma callbacks_are_error_first_witness :
  (error_only [VStr "Task error"] = true /\ value_only [VStr "Task error"] = false)
  \/ ([VStr "Task error"] = [VNull; body (ok (task_body "error"))]
      /\ truthy VNull = false).
Proof.
  exact (callbacks_are_error_first runtime0 new_SRAAPI
           (KPoll (VStr "t1") fn_done fn_progress) VNull (ok (task_body "error"))
           [VStr "Task error"] (or_introl eq_refl)).
Defined.

(** X7.  A wait succeeds in one way only: the completion callback is handed
    a value exactly when the task is seen completed and the response is
    a 200, and the value is then the whole body of that response. *)
Theorem taskWait_success_iff rt self task callback callbackProgress err res v :
  isFunction callback = true ->
  In [VNull; v]
     (callbacks (effects (checkTask_end rt self task callback callbackProgress
                            err res)))
  <-> observe err res = Completed /\ statusCode res = 200 /\ v = body res.
Proof.
  intros Hf.
  pose proof (checkTask_end_by_observation rt self task callback
                callbackProgress err res) as H.
  assert (Hcall : forall e,
            ~ In [VNull; v]
                 (callbacks (effects (call ECallback "callback" callback [e])))).
  { intros e. unfold call. rewrite Hf. simpl. intros [Heq | []]. discriminate. }
  split.
  - intros Hin. destruct (observe err res) eqn:Ho;
      try (rewrite H in Hin; now apply Hcall in Hin).
    + destruct H as [msg H]. rewrite H in Hin. destruct Hin.
    + destruct H as [He H]. rewrite H in Hin.
      rewrite (handleResponse_function _ _ _ Hf) in Hin.
      unfold normalize in Hin. rewrite He in Hin.
      destruct (statusCode res =? 200) eqn:E; simpl in Hin.
      * destruct Hin as [[= <-] | []]. apply Z.eqb_eq in E. auto.
      * destruct Hin as [Heq | []]. discriminate.
    + rewrite H in Hin. destruct Hin.
    + rewrite H in Hin. exfalso.
      unfold processing_case, call, setTimeout in Hin.
      destruct (isFunction callbackProgress); simpl in Hin; [|contradiction].
      destruct (get (body res) "progress") as [e1 | progress];
        simpl in Hin; [contradiction|].
      destruct (get progress "current") as [e1 | current];
        simpl in Hin; [contradiction|].
      destruct (get progress "max") as [e1 | max];
        simpl in Hin; contradiction.
  - intros (Ho & Hc & ->). rewrite Ho in H. destruct H as [He ->].
    rewrite (handleResponse_function _ _ _ Hf).
    unfold normalize. rewrite He, Hc. simpl. auto.
Qed.

Lemma taskWait_success_iff_witness :
  In [VNull; task_body "completed"]
     (callbacks (effects (checkTask_end runtime0 new_SRAAPI (VStr "t1") fn_done
                            fn_progress VNull (ok (task_body "completed"))))).
Proof.
  apply (taskWait_success_iff runtime0 new_SRAAPI (VStr "t1") fn_done fn_progress
           VNull (ok (task_body "completed")) (task_body "completed") eq_refl).
  repeat split.
Defined.

(* ================================================================== *)
(** ** The single-request operations in the event loop *)
(* ================================================================== *)

Lemma completions_callbacks es : completions es = List.length (callbacks es).
Proof. induction es as [|[] es IH]; simpl; auto. Qed.

Lemma handleResponse_effects err res callback :
  _handleResponse err res callback =
  (if isFunction callback then [ECallback (report (normalize err res))] else [],
   inr tt).
Proof.
  destruct (isFunction callback) eqn:Hf.
  - now apply handleResponse_function.
  - now apply handleResponse_without_callback.
Qed.

(** X8.  [login] and [taskQueue], and [upload] where it returns, each
    leave one request in flight and nothing else; an [upload] that
    throws leaves nothing at all.  From one request in flight the only
    thing that can happen is the response to that request: the callback,
    if it is a function, is then called once with the report of the
    normalized response, and nothing is left that could run; no request
    is sent again, no timer is ever armed, nothing is thrown. *)
Theorem single_request_lifecycle rt this callback :
  (forall username password,
     awaiting callback (absorb idle (login this username password callback))) /\
  (forall file settings this',
     outcome (upload this file settings callback) = inr this' ->
     awaiting callback (absorb idle (upload this file settings callback))) /\
  (forall file settings e,
     outcome (upload this file settings callback) = inl e ->
     absorb idle (upload this file settings callback) =
     {| log := []; inflight := []; timers := []; uncaught := [e] |}) /\
  (forall library task settings,
     awaiting callback
       (absorb idle (taskQueue rt this library task settings callback))) /\
  (forall w0 ins w,
     awaiting callback w0 ->
     run rt this w0 ins = Some w ->
     requests (log w) = 1%nat /\ timers w = [] /\ uncaught w = [] /\
     ((ins = [] /\ w = w0) \/
      (exists err res,
         ins = [Respond 0 err res] /\
         inflight w = [] /\
         (forall i, step rt this w i = None) /\
         callbacks (log w) =
           if isFunction callback then [report (normalize err res)] else []))).
Proof.
  split; [|split; [|split; [|split]]].
  - intros username password. repeat split.
  - intros file settings this' Hret.
    destruct (upload_cases this file settings callback) as [Hthrow Hok].
    destruct (nullish file) eqn:Hn.
    + destruct (Hthrow eq_refl) as [msg Hup]. rewrite Hup in Hret. discriminate.
    + rewrite (Hok eq_refl) in *.
      destruct (existsb (fun kv => nullish (snd kv)) (forEach settings));
        [discriminate|]. repeat split.
  - intros file settings e Hthrown.
    pose proof (proj2 (upload_sends_iff_returns this file settings callback)
                  e Hthrown) as Hnone.
    unfold absorb. rewrite Hnone, Hthrown. reflexivity.
  - intros library task settings. repeat split.
  - intros w0 ins w (Hreq & Hc & Hin & Htm & Hun) Hrun.
    destruct ins as [|i ins].
    { injection Hrun as <-. repeat split; auto. }
    simpl in Hrun.
    destruct i as [n err res | n]; simpl in Hrun;
      [|rewrite Htm in Hrun; destruct n; discriminate].
    rewrite Hin in Hrun.
    destruct (nth_error [KNormalize callback] n) as [k|] eqn:Hn; [|discriminate].
    apply nth_error_singleton in Hn. destruct Hn as [-> ->].
    simpl in Hrun. rewrite handleResponse_effects in Hrun.
    assert (Hcb : callbacks (log w0) = []).
    { rewrite completions_callbacks in Hc.
      destruct (callbacks (log w0)); [reflexivity | discriminate]. }
    destruct ins as [|i ins].
    + injection Hrun as <-. unfold absorb. simpl.
      rewrite requests_app, callbacks_app, Hreq, Hcb, Htm, Hun.
      destruct (isFunction callback); simpl;
        (repeat split; auto; right; exists err, res; repeat split; auto;
         intros [k e r | k]; simpl; destruct k; reflexivity).
    + exfalso. simpl in Hrun. unfold absorb in Hrun. simpl in Hrun.
      rewrite Htm in Hrun.
      destruct i as [k e r | k]; simpl in Hrun.
      * destruct (isFunction callback); simpl in Hrun;
          destruct k; discriminate.
      * destruct (isFunction callback); simpl in Hrun;
          destruct k; discriminate.
Qed.

Lemma single_request_lifecycle_witness :
  exists w,
    run runtime0 new_SRAAPI
      (absorb idle (login new_SRAAPI (VStr "ann") (VStr "secret") fn_done))
      [Respond 0 VNull (ok (VObj [("name", VStr "Ann")]))] = Some w /\
    requests (log w) = 1%nat /\ timers w = [] /\ uncaught w = [].
Proof.
  eexists. split; [reflexivity|].
  destruct (single_request_lifecycle runtime0 new_SRAAPI fn_done)
    as (Hlogin & _ & _ & _ & Hrun).
  destruct (Hrun _ [Respond 0 VNull (ok (VObj [("name", VStr "Ann")]))] _
              (Hlogin (VStr "ann") (VStr "secret")) eq_refl)
    as (Hreq & Htm & Hun & _).
  repeat split; assumption.
Defined.

(* ================================================================== *)
(** ** [upload] *)
(* ================================================================== *)



(* ================================================================== *)
(** ** [getLibraryReferences]: sending or throwing *)
(* ================================================================== *)

(** X10.  [getLibraryReferences] either sends one request and returns the
    client, or throws and sends nothing.  It throws a [ReferenceError]
    where no global [config] is declared, and a [TypeError] where that
    global or the library argument is [undefined] or [null]; in every
    other case it sends. *)
Theorem getLibraryReferences_sends_or_throws rt global this library query_
    callback :
  match global "config" with
  | None =>
      getLibraryReferences rt global this library query_ callback =
      ([], inl (ReferenceError "config is not defined"))
  | Some cfg =>
      if nullish cfg || nullish library then
        exists msg,
          getLibraryReferences rt global this library query_ callback =
          ([], inl (TypeError msg))
      else
        exists r,
          getLibraryReferences rt global this library query_ callback =
          ([ESend r (KNormalize callback)], inr this) /\
          r_method r = GET
  end.
Proof.
  unfold getLibraryReferences, resolve.
  destruct (global "config") as [cfg|]; [|reflexivity].
  rewrite bind_lift_inr.
  destruct (get_total cfg "url") as [[base Hb] | Hn].
  - assert (Hc : nullish cfg = false) by (destruct cfg; try reflexivity; discriminate).
    rewrite Hc, Hb, bind_lift_inr. simpl orb.
    destruct (get_total library "_id") as [[id Hid] | Hn].
    + assert (Hl : nullish library = false)
        by (destruct library; try reflexivity; discriminate).
      rewrite Hl, Hid, bind_lift_inr. eexists. split; reflexivity.
    + assert (Hl : nullish library = true) by (destruct Hn as [-> | ->]; reflexivity).
      rewrite Hl. destruct (get_nullish library "_id" Hn) as [msg ->].
      exists msg. reflexivity.
  - assert (Hc : nullish cfg = true) by (destruct Hn as [-> | ->]; reflexivity).
    rewrite Hc. destruct (get_nullish cfg "url" Hn) as [msg ->].
    exists msg. reflexivity.
Qed.

(** X11.  Called as its documentation has it, with the library ID as a
    string, [getLibraryReferences] does not put that ID into the query:
    it reads [library._id], which a string has not, so unless the extra
    query brings a [library] of its own, the query's [library] is not
    the ID. *)
Theorem getLibraryReferences_drops_string_id rt global this id query_ callback
    cfg base :
  global "config" = Some cfg ->
  get cfg "url" = inr base ->
  NoDup (map fst (entries query_)) ->
  lookup "library" (entries query_) = None ->
  exists r,
    getLibraryReferences rt global this (VStr id) query_ callback =
    ([ESend r (KNormalize callback)], inr this) /\
    lookup "library" (r_qs r) <> Some (VStr id) /\
    forall v, lookup "library" (r_qs r) = Some v -> truthy v = false.
Proof.
  intros Hg Hu Hnd Hnone.
  eexists. split.
  { unfold getLibraryReferences, resolve. rewrite Hg, bind_lift_inr.
    rewrite Hu, bind_lift_inr. simpl get. rewrite bind_lift_inr. reflexivity. }
  simpl r_qs.
  match goal with
  | |- lookup _ ?q <> _ /\ _ =>
      assert (Hq : lookup "library" q = Some VUndef)
  end.
  { destruct (truthy query_).
    - rewrite query_lookup
        by (apply baseMerge_NoDup; simpl; constructor; [intros []|constructor]).
      rewrite baseMerge_lookup_notin by now apply lookup_None_notin.
      reflexivity.
    - reflexivity. }
  rewrite Hq. split; [discriminate|].
  intros v [= <-]. reflexivity.
Qed.

Lemma getLibraryReferences_drops_string_id_witness :
  exists r,
    getLibraryReferences runtime0 with_config new_SRAAPI (VStr "L1")
      (VObj [("sort", VStr "title")]) fn_done =
    ([ESend r (KNormalize fn_done)], inr new_SRAAPI) /\
    lookup "library" (r_qs r) <> Some (VStr "L1").
Proof.
  destruct (getLibraryReferences_drops_string_id runtime0 with_config new_SRAAPI
              "L1" (VObj [("sort", VStr "title")]) fn_done
              (VObj [("url", VStr "http://sra")]) (VStr "http://sra")
              eq_refl eq_refl
              (NoDup_cons "sort" (fun H : In "sort" [] => H) (NoDup_nil string))
              eq_refl)
    as (r & Hsent & Hne & _).
  exists r. split; assumption.
Defined.

(** X12.  The next poll is scheduled exactly for a task seen pending, and for
    a task seen in progress when the read of its progress did not throw;
    every other response leaves no timer. *)
Theorem taskWait_reschedules_iff rt self task callback callbackProgress err res :
  let h := checkTask_end rt self task callback callbackProgress err res in
  (timeouts (effects h) = [KCheckTask task callback callbackProgress] <->
   observe err res = Pending \/
   (observe err res = Processing /\ outcome h = inr tt)) /\
  (timeouts (effects h) = [] \/
   timeouts (effects h) = [KCheckTask task callback callbackProgress]).
Proof.
  cbv zeta.
  pose proof (checkTask_end_by_observation rt self task callback
                callbackProgress err res) as H.
  assert (Hcall : forall args,
            timeouts (effects (call ECallback "callback" callback args)) = []).
  { intros args. unfold call. destruct (isFunction callback); reflexivity. }
  assert (Hnorm : timeouts (effects (_handleResponse err res callback)) = []).
  { rewrite handleResponse_effects. destruct (isFunction callback); reflexivity. }
  destruct (observe err res) eqn:Ho;
    try (rewrite H, Hcall; split; [|now left]; split;
         [discriminate | intros [Hp | [Hp _]]; discriminate]).
  - destruct H as [msg ->]. simpl. split; [|now left]. split;
      [discriminate | intros [Hp | [Hp _]]; discriminate].
  - destruct H as [_ ->]. rewrite Hnorm. split; [|now left]. split;
      [discriminate | intros [Hp | [Hp _]]; discriminate].
  - rewrite H. simpl. split; [|now right]. split; auto.
  - rewrite H. unfold processing_case, call, setTimeout.
    destruct (isFunction callbackProgress); simpl.
    + destruct (get (body res) "progress") as [e1 | progress]; simpl;
        [split; [|now left]; split;
         [discriminate | intros [Hp | [_ Hp]]; discriminate]|].
      destruct (get progress "current") as [e1 | current]; simpl;
        [split; [|now left]; split;
         [discriminate | intros [Hp | [_ Hp]]; discriminate]|].
      destruct (get progress "max") as [e1 | max]; simpl;
        [split; [|now left]; split;
         [discriminate | intros [Hp | [_ Hp]]; discriminate]|].
      split; [|now right]. split; auto.
    + split; [|now right]. split; auto.
Qed.

(* ================================================================== *)
(** ** The percent, against the exact ceiling *)
(* ================================================================== *)

Lemma number_eqb_eq x y : number_eqb x y = true -> x = y.
Proof.
  destruct x, y; simpl; try discriminate; auto.
  - intros H. apply Bool.eqb_prop in H. now subst.
  - intros H. apply Bool.eqb_prop in H. now subst.
  - intros H. apply andb_prop in H. destruct H as [H He].
    apply andb_prop in H. destruct H as [Hs Hm].
    apply Bool.eqb_prop in Hs. apply Pos.eqb_eq in Hm. apply Z.eqb_eq in He.
    now subst.
Qed.

Lemma percent_ok_sound c m :
  percent_ok c m = true ->
  percent_of c m = of_Z (exact_percent c m) \/
  (percent_of c m = of_Z (exact_percent c m + 1) /\ exact_percent c m + 1 <= 100).
Proof.
  unfold percent_ok. intros H. apply orb_prop in H. destruct H as [H | H].
  - left. now apply number_eqb_eq.
  - right. apply andb_prop in H. destruct H as [H Hle].
    split; [now apply number_eqb_eq | now apply Z.leb_le].
Qed.

Lemma percent_ok_upto_sound n c m :
  percent_ok_upto n = true ->
  0 <= c <= m -> 1 <= m <= Z.of_nat n ->
  percent_ok c m = true.
Proof.
  unfold percent_ok_upto. intros H Hc Hm.
  rewrite forallb_forall in H.
  assert (Hin : In (Z.to_nat m) (seq 1 n)) by (apply in_seq; lia).
  specialize (H _ Hin). rewrite forallb_forall in H.
  assert (Hin' : In (Z.to_nat c) (seq 0 (S (Z.to_nat m)))) by (apply in_seq; lia).
  specialize (H _ Hin'). now rewrite !Z2Nat.id in H by lia.
Qed.

Lemma percent_ok_100 : percent_ok_upto 100 = true.
Proof. vm_compute. reflexivity. Qed.

Lemma exact_percent_range c m :
  0 <= c <= m -> 1 <= m -> 0 <= exact_percent c m <= 100.
Proof.
  intros Hc Hm. unfold exact_percent. split.
  - apply Z.div_pos; lia.
  - assert (H : (100 * c + m - 1) / m < 101)
      by (apply Z.div_lt_upper_bound; lia).
    lia.
Qed.

(** X13.  For a task of at most 100 steps with [0 <= current <= max], the
    percent handed to the progress callback is a whole number from 0 to
    100: the exact ceiling of [100 * current / max], or, where the
    rounding of the division goes above a whole number, one more. *)
Theorem progress_percent_range rt self task callback callbackProgress
    err res id p c m :
  truthy err = false ->
  get (body res) "_id" = inr id -> truthy id = true ->
  get (body res) "status" = inr (VStr "processing") ->
  isFunction callbackProgress = true ->
  get (body res) "progress" = inr (VObj p) ->
  get (VObj p) "current" = inr (VNum (of_Z c)) ->
  get (VObj p) "max" = inr (VNum (of_Z m)) ->
  0 <= c <= m -> 1 <= m <= 100 ->
  exists k,
    exact_percent c m <= k <= exact_percent c m + 1 /\ 0 <= k <= 100 /\
    checkTask_end rt self task callback callbackProgress err res =
    ([EProgress [put (body res) "progress"
                   (put (VObj p) "percent" (VNum (of_Z k)))];
      ESetTimeout (KCheckTask task callback callbackProgress)
        (pollFreq (this_config self))], inr tt).
Proof.
  intros He Hid Tid Hst Hf Hp Hcur Hmax Hc Hm.
  assert (Hrun : checkTask_end rt self task callback callbackProgress err res =
                 ([EProgress [put (body res) "progress"
                                (put (VObj p) "percent" (VNum (percent_of c m)))];
                   ESetTimeout (KCheckTask task callback callbackProgress)
                     (pollFreq (this_config self))], inr tt)).
  { rewrite (checkTask_end_dispatch rt self task callback callbackProgress
               err res id _ He Hid Tid Hst eq_refl).
    simpl. unfold processing_case, call, setTimeout.
    rewrite Hf, Hp, bind_lift_inr, Hcur, bind_lift_inr, Hmax, bind_lift_inr.
    reflexivity. }
  pose proof (exact_percent_range c m Hc (proj1 Hm)) as Hrange.
  destruct (percent_ok_sound c m
              (percent_ok_upto_sound 100 c m percent_ok_100 Hc Hm))
    as [Hk | [Hk Hle]].
  - exists (exact_percent c m). rewrite Hrun, Hk. repeat split; lia.
  - exists (exact_percent c m + 1). rewrite Hrun, Hk. repeat split; lia.
Qed.

Lemma progress_percent_range_witness :
  exists k,
    exact_percent 7 100 <= k <= exact_percent 7 100 + 1 /\ 0 <= k <= 100 /\
    checkTask_end runtime0 new_SRAAPI (VStr "t1") fn_done fn_progress VNull
      (ok (progress_body 7 100)) =
    ([EProgress [put (progress_body 7 100) "progress"
                   (put (VObj [("current", VNum (of_Z 7));
                               ("max", VNum (of_Z 100))])
                        "percent" (VNum (of_Z k)))];
      ESetTimeout (KCheckTask (VStr "t1") fn_done fn_progress) 1000], inr tt).
Proof.
  apply (progress_percent_range runtime0 new_SRAAPI (VStr "t1") fn_done
           fn_progress VNull (ok (progress_body 7 100)) (VStr "t1")
           [("current", VNum (of_Z 7)); ("max", VNum (of_Z 100))] 7 100);
    try reflexivity; lia.
Defined.
